(** * insysbio_db: the REST client of the FIVEDB and Cytocon databases

    A shallow embedding of [insysbio_db.py]: the token cache and the
    authenticator, the API caller, the dictionary cache, the header
    selection and catalogue and the two database managers, followed by
    the properties of the specification that concern them and by further
    properties of the code.

    Conventions of the embedding.
    - A Python value that came out of [json.load]/[json.loads] is a [json];
      [None] is [JNull].  Numbers are integers.  Strings are atoms compared
      for equality; Python operations that look inside a string (substring
      tests, [int] of a string) are outside the model, and so is what pandas
      makes of a payload that is not a list of records with the same keys
      and without a null.
    - A text is known through what the program observes of it: whether
      [json] decodes it (and to what), and the fields of its first line.
    - A date is its count of microseconds from [datetime.min], and the
      sum of a date and a lifetime that is past [datetime.max] or before
      [datetime.min] raises OverflowError.  The ISO format of a date and
      the parser of that format are parameters of the methods that use
      them; the parser tells an aware date from a naive one.
    - The file system, the clock, the server and the log of the requests
      sent form the [world]; the manager object is [self].  The file
      system has files and no directories: a file is created wherever its
      path lies, as it is by [open] when the directory exists.  A method is a
      function from the state to an [outcome] and the next state; a raised
      exception keeps the state reached when it was raised.
    - The header catalogue is a table of two columns of strings; what
      pandas makes of records of another shape is outside the model.
    - [print] is not modelled, nor are the methods that save a dictionary
      or the headers to a text file: the text they write is known to the
      model neither by its JSON nor by its first line. *)

From Stdlib Require Import ZArith Lia Ascii String DecimalString.
From stdpp Require Import base option list gmap strings fin_maps.

Local Open Scope string_scope.

(** ** JSON values, as Python sees them after decoding *)

#[warnings="-register-all"]
Inductive json : Type :=
| JNull
| JBool (b : bool)
| JInt (n : Z)
| JStr (s : string)
| JArr (items : list json)
| JObj (members : list (string * json)).

(** Truth value of a Python object ([if x], [not x]). *)
Definition truthy (v : json) : bool :=
  match v with
  | JNull => false
  | JBool b => b
  | JInt n => negb (n =? 0)%Z
  | JStr s => negb (String.eqb s "")
  | JArr items => match items with [] => false | _ => true end
  | JObj members => match members with [] => false | _ => true end
  end.

(** [s == v] for a Python [str] s: only an equal string is equal to it. *)
Definition str_eq (s : string) (v : json) : bool :=
  match v with
  | JStr s' => String.eqb s s'
  | _ => false
  end.

(** [d.get(key)] on a decoded object: [None] of the option is "no such key". *)
Fixpoint dict_get (key : string) (members : list (string * json)) : option json :=
  match members with
  | [] => None
  | (k, v) :: rest => if String.eqb key k then Some v else dict_get key rest
  end.

(** The strings among the items of a list. *)
Definition strings_of (items : list json) : list string :=
  omap (fun v => match v with JStr s => Some s | _ => None end) items.

(** Lists and dicts are not hashable. *)
Definition hashable (v : json) : bool :=
  match v with
  | JArr _ | JObj _ => false
  | _ => true
  end.

(** ** Exceptions *)

(** The messages the module raises, and the one of [fromisoformat]; the
    values formatted into a message are kept as data.  [NotFound] keeps the
    set [missing] that line 39 joins with a comma (a Python set has no fixed
    order). *)
Inductive message : Type :=
| NotFound (caption : string) (missing : gset string)
| TokenFieldsMissing
| UnexpectedJsonStructure
| HeadersNotLoaded
| ColumnNotFound (desc : string)
| NotAuthenticated
| InvalidIsoformat.

Inductive exn : Type :=
| ValueError (msg : message)
| Exception (msg : message)
| JSONDecodeError
| KeyError (key : string)
| TypeError
| IndexError
| AttributeError
| OverflowError
| FileNotFoundError (path : string)
| OutsideModel.

Inductive outcome (A : Type) : Type :=
| Ret (a : A)
| Raise (e : exn).
Arguments Ret {A} a.
Arguments Raise {A} e.

(** ** select_elements (lines 32-40) *)

(** [set(db_elements)], restricted to the strings it holds: the only
    members that can equal a user string.  Iterating a dict yields its
    keys; [None], booleans and numbers are not iterable; an unhashable item
    cannot enter a set. *)
Definition py_set (db_elements : json) : outcome (gset string) :=
  match db_elements with
  | JArr items =>
      if forallb hashable items then Ret (list_to_set (strings_of items))
      else Raise TypeError
  | JObj members => Ret (list_to_set (members.*1))
  | JStr _ => Raise OutsideModel
  | JNull | JBool _ | JInt _ => Raise TypeError
  end.

(** [element in db_elements], for the lists and dicts its callers pass. *)
Definition py_in (element : string) (db_elements : json) : bool :=
  match db_elements with
  | JArr items => existsb (str_eq element) items
  | JObj members => existsb (String.eqb element) (members.*1)
  | _ => false
  end.

Definition select_elements (user_elements : list string) (db_elements : json)
    (caption : string) : outcome (list string) :=
  match py_set db_elements with
  | Raise e => Raise e
  | Ret db =>
      let missing : gset string := list_to_set user_elements ∖ db in
      if decide (missing = ∅)
      then Ret (List.filter (fun element => py_in element db_elements) user_elements)
      else Raise (ValueError (NotFound caption missing))
  end.

(** ** The world the client runs in *)

(** What [json] makes of a text. *)
Inductive text : Type :=
| Encodes (j : json)
| NotJson.

(** A file of the local file system: a text that [json.load] decodes to
    [j], or any other text, known by [f.readline().strip().split(" ")]. *)
Inductive file : Type :=
| JsonFile (j : json)
| TextFile (fields : list string).

Inductive request : Type :=
| POST (url : string) (data : list (string * string))
| GET (url : string) (params : option (list (string * string))) (bearer : json).

Record Response : Type := mkResponse {
  status_code : Z;
  response_text : text }.

(** Time is counted in microseconds, the resolution of [datetime]. *)
Definition datetime : Type := Z.

Definition timedelta_seconds (seconds : Z) : Z := (seconds * 1000000)%Z.

(** The count starts at [datetime.min], the first instant of year 1, and
    [datetime.max], the last microsecond of year 9999, is the greatest
    date. *)
Definition datetime_max : Z := 315537897599999999.

Definition is_datetime (t : Z) : bool := ((0 <=? t) && (t <=? datetime_max))%Z.

(** What [datetime.fromisoformat] returns: a naive date, or an aware one
    when the text carries a UTC offset.  The module does one thing with the
    date it parses, it compares it with the naive [datetime.now()], and
    for this an aware date is known well enough by being aware. *)
Inductive parsed_datetime : Type :=
| Naive (t : datetime)
| Aware.

(** [clock] gives the value of the n-th reading of [datetime.now()] and
    [ticks] counts the readings made; [server] answers the last request of
    a history; [net_log] is the history of the requests sent, oldest
    first. *)
Record world : Type := mkWorld {
  tempdir : string;
  fs : gmap string file;
  clock : nat -> datetime;
  ticks : nat;
  server : list request -> Response;
  net_log : list request }.

(** ** The objects of the module *)

(** class APICallResult *)
Record APICallResult : Type := mkAPICallResult {
  content : text;
  response : Response }.

(** class BearerRequestToken *)
Record BearerRequestToken : Type := mkBearerRequestToken {
  token : json;
  expires_in : option datetime;
  token_response : option Response }.

(** A row of the header catalogue [headers_df]. *)
Record header_row : Type := mkHeader {
  ColumnDesc : string;
  ColumnVariable : string }.

(** The attributes of a manager: those [DBManagerBase.__init__] sets, and
    in [attributes] the dictionaries a subclass adds, by attribute name. *)
Record DBManagerBase : Type := mkManager {
  url : string;
  path_to_credentials : string;
  self_token : option BearerRequestToken;
  system_type : string;
  headers_df : list header_row;
  attributes : gmap string json }.

Definition state : Type := (world * DBManagerBase)%type.

(** ** The monad of methods *)

Definition M (A : Type) : Type := state -> outcome A * state.

Definition ret {A} (a : A) : M A := fun s => (Ret a, s).

Definition raise {A} (e : exn) : M A := fun s => (Raise e, s).

Definition bind {A B} (m : M A) (k : A -> M B) : M B :=
  fun s =>
    match m s with
    | (Ret a, s') => k a s'
    | (Raise e, s') => (Raise e, s')
    end.

Definition lift {A} (o : outcome A) : M A := fun s => (o, s).

Declare Scope py_scope.
Delimit Scope py_scope with py.
Notation "x <- m ;; k" := (bind m (fun x => k))
  (at level 100, m at next level, right associativity) : py_scope.
Notation "m ;;; k" := (bind m (fun _ => k))
  (at level 100, right associativity) : py_scope.
Local Open Scope py_scope.

(** [try: body except json.JSONDecodeError: handler] *)
Definition try_except_JSONDecodeError {A} (body handler : M A) : M A :=
  fun s =>
    match body s with
    | (Raise JSONDecodeError, s') => handler s'
    | r => r
    end.

Definition get_world : M world := fun s => (Ret (fst s), s).
Definition get_self : M DBManagerBase := fun s => (Ret (snd s), s).
Definition put_world (w : world) : M unit := fun s => (Ret tt, (w, snd s)).
Definition put_self (o : DBManagerBase) : M unit := fun s => (Ret tt, (fst s, o)).

(** *** Updates of the world *)

Definition with_fs (f : gmap string file) (w : world) : world :=
  mkWorld (tempdir w) f (clock w) (ticks w) (server w) (net_log w).

Definition with_ticks (n : nat) (w : world) : world :=
  mkWorld (tempdir w) (fs w) (clock w) n (server w) (net_log w).

Definition with_net_log (l : list request) (w : world) : world :=
  mkWorld (tempdir w) (fs w) (clock w) (ticks w) (server w) l.

(** [self.token = t] *)
Definition with_token (t : BearerRequestToken) (self : DBManagerBase) : DBManagerBase :=
  mkManager (url self) (path_to_credentials self) (Some t)
    (system_type self) (headers_df self) (attributes self).

(** [self.headers_df = df] *)
Definition with_headers (df : list header_row) (self : DBManagerBase) : DBManagerBase :=
  mkManager (url self) (path_to_credentials self) (self_token self)
    (system_type self) df (attributes self).

(** *** Library calls *)

(** [datetime.now()] *)
Definition datetime_now : M datetime :=
  w <- get_world ;;
  put_world (with_ticks (S (ticks w)) w) ;;;
  ret (clock w (ticks w)).

(** [now + timedelta(seconds=seconds)]: OverflowError when the sum is no
    date.  The readings of the clock being dates, a number of seconds that
    is out of the range of [timedelta], where the same error is raised,
    takes the sum out of the range of [datetime], so that this one test
    stands for both. *)
Definition datetime_add_seconds (now : datetime) (seconds : Z) : M datetime :=
  let sum := (now + timedelta_seconds seconds)%Z in
  if is_datetime sum then ret sum else raise OverflowError.

(** [tempfile.gettempdir()] *)
Definition gettempdir : M string :=
  w <- get_world ;; ret (tempdir w).

Definition startswith_slash (p : string) : bool :=
  match p with
  | String c _ => Ascii.eqb c "/"%char
  | EmptyString => false
  end.

Fixpoint endswith_slash (p : string) : bool :=
  match p with
  | EmptyString => false
  | String c EmptyString => Ascii.eqb c "/"%char
  | String _ rest => endswith_slash rest
  end.

(** [os.path.join(a, b)] (posixpath) *)
Definition os_path_join (a b : string) : string :=
  if startswith_slash b then b
  else if String.eqb a "" || endswith_slash a then a ++ b
  else a ++ "/" ++ b.

(** [os.path.exists(path)] *)
Definition os_path_exists (path : string) : M bool :=
  w <- get_world ;; ret (bool_decide (is_Some (fs w !! path))).

(** [os.remove(path)] *)
Definition os_remove (path : string) : M unit :=
  w <- get_world ;;
  match fs w !! path with
  | Some _ => put_world (with_fs (delete path (fs w)) w)
  | None => raise (FileNotFoundError path)
  end.

(** [with open(path, "r") as f: json.load(f)] *)
Definition json_load (path : string) : M json :=
  w <- get_world ;;
  match fs w !! path with
  | Some (JsonFile j) => ret j
  | Some (TextFile _) => raise JSONDecodeError
  | None => raise (FileNotFoundError path)
  end.

(** [with open(path, "w") as f: json.dump(value, f)].  The model has no
    directories: the file is created wherever the path lies, as [open]
    does when the directory the path names exists.  For the cache files of
    the module, which it joins to the temp directory, this is so when the
    name joined is a file name (no [/] in it). *)
Definition json_dump (value : json) (path : string) : M unit :=
  w <- get_world ;; put_world (with_fs (<[path := JsonFile value]> (fs w)) w).

(** [with open(path, "r") as f: f.readline().strip().split(" ")] *)
Definition readline_strip_split (path : string) : M (list string) :=
  w <- get_world ;;
  match fs w !! path with
  | Some (TextFile fields) => ret fields
  | Some (JsonFile _) => raise OutsideModel
  | None => raise (FileNotFoundError path)
  end.

(** Sending a request: it enters the log and the server answers the
    history it now ends. *)
Definition send (r : request) : M Response :=
  w <- get_world ;;
  let history := (net_log w ++ [r])%list in
  put_world (with_net_log history w) ;;;
  ret (server w history).

(** [requests.post(url, data=data)] *)
Definition requests_post (to : string) (data : list (string * string)) : M Response :=
  send (POST to data).

(** [requests.get(url, params=params, headers={"Authorization": f"Bearer {bearer}"})] *)
Definition requests_get (to : string) (params : option (list (string * string)))
    (bearer : json) : M Response :=
  send (GET to params bearer).

(** [json.loads(content)] and [response.json()] *)
Definition json_loads (t : text) : M json :=
  match t with
  | Encodes j => ret j
  | NotJson => raise JSONDecodeError
  end.

(** [list[i]] *)
Definition list_item (l : list string) (i : nat) : M string :=
  match l !! i with
  | Some x => ret x
  | None => raise IndexError
  end.

(** [key in v] for a string [key] *)
Definition py_contains (key : string) (v : json) : M bool :=
  match v with
  | JObj _ | JArr _ => ret (py_in key v)
  | JStr _ => raise OutsideModel
  | JNull | JBool _ | JInt _ => raise TypeError
  end.

(** [v[key]] for a string [key] *)
Definition py_getitem (v : json) (key : string) : M json :=
  match v with
  | JObj members =>
      match dict_get key members with
      | Some x => ret x
      | None => raise (KeyError key)
      end
  | JStr _ | JArr _ | JNull | JBool _ | JInt _ => raise TypeError
  end.

(** [int(v)] *)
Definition py_int (v : json) : M Z :=
  match v with
  | JInt n => ret n
  | JBool b => ret (if b then 1 else 0)%Z
  | JStr _ => raise OutsideModel
  | JNull | JArr _ | JObj _ => raise TypeError
  end.

(** ** DBManagerBase *)

(** [[item.get("Name") for item in response_data]] *)
Fixpoint names_of (response_data : list json) : outcome (list json) :=
  match response_data with
  | [] => Ret []
  | JObj members :: rest =>
      match names_of rest with
      | Ret names => Ret (default JNull (dict_get "Name" members) :: names)
      | Raise e => Raise e
      end
  | _ :: _ => Raise AttributeError
  end.

(** The loop of [select_header] (lines 204-211): [match] is the column
    [ColumnVariable] of the rows whose [ColumnDesc] equals [desc]. *)
Fixpoint select_header_loop (df : list header_row) (column_descriptions : list string)
    (selected_variables : list string) : outcome (list string) :=
  match column_descriptions with
  | [] => Ret selected_variables
  | desc :: rest =>
      match List.filter (fun row => String.eqb (ColumnDesc row) desc) df with
      | row :: _ => select_header_loop df rest (selected_variables ++ [ColumnVariable row])%list
      | [] => Raise (ValueError (ColumnNotFound desc))
      end
  end.

Section DBManagerBase.
(** [datetime.isoformat] and [datetime.fromisoformat]; the latter gives
    [None] where Python raises ValueError. *)
Variable isoformat : datetime -> string.
Variable fromisoformat : string -> option parsed_datetime.

Definition set_token (t : BearerRequestToken) : M unit :=
  self <- get_self ;; put_self (with_token t self).

(** [self.name = value] for a dictionary attribute *)
Definition setattr (name : string) (value : json) : M unit :=
  self <- get_self ;;
  put_self (mkManager (url self) (path_to_credentials self) (self_token self)
              (system_type self) (headers_df self) (<[name := value]> (attributes self))).

(** [self.name] for a dictionary attribute *)
Definition getattr (name : string) : M json :=
  self <- get_self ;;
  match attributes self !! name with
  | Some value => ret value
  | None => raise AttributeError
  end.

Definition py_fromisoformat (v : json) : M parsed_datetime :=
  match v with
  | JStr s =>
      match fromisoformat s with
      | Some t => ret t
      | None => raise (ValueError InvalidIsoformat)
      end
  | _ => raise TypeError
  end.

(** lines 42-45 *)
Definition get_auth_token_path : M string :=
  temp_path <- gettempdir ;;
  self <- get_self ;;
  ret (os_path_join temp_path ("token_cache_" ++ system_type self ++ ".json")).

(** lines 47-58 *)
Definition reset_auth_token : M unit :=
  token_file_path <- get_auth_token_path ;;
  found <- os_path_exists token_file_path ;;
  if found then os_remove token_file_path else ret tt.

(** lines 64-76: [Some] is the early return of the cached token.  The
    comparison of line 69 has [datetime.now()], which is naive, on its
    right: Python raises TypeError when the date on its left is aware. *)
Definition check_token_cache (token_file_path : string) : M (option BearerRequestToken) :=
  found <- os_path_exists token_file_path ;;
  if found then
    cached_token <- json_load token_file_path ;;
    stored <- py_getitem cached_token "expires_in" ;;
    expires <- py_fromisoformat stored ;;
    now <- datetime_now ;;
    match expires with
    | Naive expires =>
        if (expires >? now)%Z then
          cached <- py_getitem cached_token "token" ;;
          let t := mkBearerRequestToken cached (Some expires) None in
          set_token t ;;;
          ret (Some t)
        else ret None
    | Aware => raise TypeError
    end
  else ret None.

(** lines 78-117 *)
Definition request_new_token (token_file_path : string) : M BearerRequestToken :=
  self <- get_self ;;
  credentials <- readline_strip_split (path_to_credentials self) ;;
  username <- list_item credentials 0 ;;
  password <- list_item credentials 1 ;;
  let body := [("grant_type", "password"); ("client_id", username);
               ("client_secret", password); ("username", username);
               ("password", password)] in
  response <- requests_post (url self ++ "/oauth/token") body ;;
  if (status_code response =? 200)%Z then
    response_data <- json_loads (response_text response) ;;
    has_token <- py_contains "access_token" response_data ;;
    has_both <- (if has_token then py_contains "expires_in" response_data else ret false) ;;
    if negb has_both then raise (ValueError TokenFieldsMissing)
    else
      now <- datetime_now ;;
      lifetime <- py_getitem response_data "expires_in" ;;
      seconds <- py_int lifetime ;;
      expires <- datetime_add_seconds now seconds ;;
      access_token <- py_getitem response_data "access_token" ;;
      let t := mkBearerRequestToken access_token (Some expires) (Some response) in
      set_token t ;;;
      json_dump (JObj [("token", token t); ("expires_in", JStr (isoformat expires))])
                token_file_path ;;;
      ret t
  else
    let t := mkBearerRequestToken (JStr "") None (Some response) in
    set_token t ;;;
    ret t.

(** lines 60-117 *)
Definition request_auth_token : M BearerRequestToken :=
  token_file_path <- get_auth_token_path ;;
  cached <- check_token_cache token_file_path ;;
  match cached with
  | Some t => ret t
  | None => request_new_token token_file_path
  end.

(** lines 119-124 *)
Definition is_authenticated : M bool :=
  self <- get_self ;;
  ret (match self_token self with
       | Some t => truthy (token t)
       | None => false
       end).

(** [self.token.token] *)
Definition self_token_token : M json :=
  self <- get_self ;;
  match self_token self with
  | Some t => ret (token t)
  | None => raise AttributeError
  end.

(** lines 126-141 *)
Definition do_api_call (path : string) (params : option (list (string * string)))
    : M APICallResult :=
  authenticated <- is_authenticated ;;
  (if negb authenticated then
     request_auth_token ;;;
     held <- self_token_token ;;
     if negb (truthy held) then raise (Exception NotAuthenticated) else ret tt
   else ret tt) ;;;
  bearer <- self_token_token ;;
  self <- get_self ;;
  response <- requests_get (url self ++ path) params bearer ;;
  if (status_code response =? 200)%Z
  then ret (mkAPICallResult (response_text response) response)
  else ret (mkAPICallResult NotJson response).

(** lines 160-167 *)
Definition extract_names (response_data : json) : M json :=
  match response_data with
  | JArr items => names <- lift (names_of items) ;; ret (JArr names)
  | JObj members => ret (default (JArr []) (dict_get "Name" members))
  | JNull | JBool _ | JInt _ | JStr _ => raise (ValueError UnexpectedJsonStructure)
  end.

(** lines 154-179: what [get_dictionary] does with the result of the call *)
Definition dictionary_of_result (cache_file_path : string)
    (api_call_result : APICallResult) : M json :=
  if (status_code (response api_call_result) =? 200)%Z then
    try_except_JSONDecodeError
      (response_data <- json_loads (content api_call_result) ;;
       dictionary_data <- extract_names response_data ;;
       json_dump dictionary_data cache_file_path ;;;
       ret dictionary_data)
      (ret JNull)
  else ret JNull.

(** lines 143-179 *)
Definition get_dictionary (path dictionary_name : string) (force : bool) : M json :=
  temp_path <- gettempdir ;;
  let cache_file_path := os_path_join temp_path (dictionary_name ++ ".json") in
  cached <- (if force then ret false else os_path_exists cache_file_path) ;;
  if cached then json_load cache_file_path
  else
    api_call_result <- do_api_call path None ;;
    dictionary_of_result cache_file_path api_call_result.

(** lines 189-192; [load_dictionaries] is the method of the subclass. *)
Definition check_dictionary (load_dictionaries : bool -> M unit)
    (dictionary : json) (caption : string) : M unit :=
  if negb (truthy dictionary) then load_dictionaries false else ret tt.

(** The first statement of every [select_*] method:
    [self.check_dictionary(self.<attribute>, caption)]. *)
Definition check_attribute (load_dictionaries : bool -> M unit)
    (attribute caption : string) : M unit :=
  dictionary <- getattr attribute ;;
  check_dictionary load_dictionaries dictionary caption.

(** The body the [select_*] methods share: after the check, the attribute
    is read again for [select_elements]. *)
Definition select (load_dictionaries : bool -> M unit)
    (attribute caption : string) (values : list string) : M (list string) :=
  check_attribute load_dictionaries attribute caption ;;;
  dictionary <- getattr attribute ;;
  lift (select_elements values dictionary caption).

(** lines 201-211 *)
Definition select_header (column_descriptions : list string) : M (list string) :=
  self <- get_self ;;
  match headers_df self with
  | [] => raise (ValueError HeadersNotLoaded)
  | _ :: _ => lift (select_header_loop (headers_df self) column_descriptions [])
  end.

End DBManagerBase.

(** ** Tables *)

(** The table [pd.DataFrame] builds from a list of records: its rows. *)
Definition DataFrame : Type := list (list (string * json)).

Fixpoint records_of (items : list json) : option DataFrame :=
  match items with
  | [] => Some []
  | JObj members :: rest => cons members <$> records_of rest
  | _ :: _ => None
  end.

Definition keys_of (members : list (string * json)) : list string := fst <$> members.

(** The records share their keys: each has the keys of the first, in the
    same order. *)
Definition same_keys (rows : list (list (string * json))) : bool :=
  match rows with
  | [] => true
  | first :: rest =>
      forallb (fun members => bool_decide (keys_of members = keys_of first)) rest
  end.

Definition is_null (v : json) : bool :=
  match v with
  | JNull => true
  | _ => false
  end.

(** The records make a table as they are: they share their keys and none
    of their values is null. *)
Definition tabular (rows : list (list (string * json))) : bool :=
  same_keys rows
  && forallb (fun members => forallb (fun cell => negb (is_null cell.2)) members) rows.

(** [pd.DataFrame(data)] for the payload of a query, a list of row
    objects that make a table as they are: the rows of the table are the
    records.  Where a record lacks a key of another, pandas fills the table
    with NaN, and a null among numbers becomes NaN and makes floats of the
    numbers; this, and what pandas does with other shapes, is outside the
    model. *)
Definition pd_DataFrame (data : json) : outcome DataFrame :=
  match data with
  | JArr items =>
      match records_of items with
      | Some rows => if tabular rows then Ret rows else Raise OutsideModel
      | None => Raise OutsideModel
      end
  | _ => Raise OutsideModel
  end.

(** [",".join(values)] *)
Definition join_comma (values : list string) : string := String.concat "," values.

(** ** The header catalogue *)

(** A record of the catalogue: an object with the columns [ColumnDesc] and
    [ColumnVariable], in this order, both strings. *)
Definition header_of_record (record : json) : option header_row :=
  match record with
  | JObj [(column1, JStr desc); (column2, JStr variable)] =>
      if String.eqb column1 "ColumnDesc" && String.eqb column2 "ColumnVariable"
      then Some (mkHeader desc variable)
      else None
  | _ => None
  end.

(** [pd.DataFrame(data)] for a list of such records. *)
Definition pd_DataFrame_headers (data : json) : outcome (list header_row) :=
  match data with
  | JArr items =>
      match mapM header_of_record items with
      | Some rows => Ret rows
      | None => Raise OutsideModel
      end
  | _ => Raise OutsideModel
  end.

Definition record_of_header (row : header_row) : json :=
  JObj [("ColumnDesc", JStr (ColumnDesc row)); ("ColumnVariable", JStr (ColumnVariable row))].

(** [df.to_dict(orient="records")] *)
Definition to_dict_records (df : list header_row) : json :=
  JArr (record_of_header <$> df).

Section HeaderCatalogue.
Variable isoformat : datetime -> string.
Variable fromisoformat : string -> option parsed_datetime.

Definition set_headers (df : list header_row) : M unit :=
  self <- get_self ;; put_self (with_headers df self).

(** lines 470-482 and 294-306: what [query_headers] does with the result
    of the call. *)
Definition headers_of_result (cache_file : string) (api_call_result : APICallResult)
    : M (option (list header_row)) :=
  if (status_code (response api_call_result) =? 200)%Z then
    response_content <- json_loads (content api_call_result) ;;
    let records := match response_content with
                   | JArr _ => response_content
                   | _ => JArr [response_content]
                   end in
    df <- lift (pd_DataFrame_headers records) ;;
    set_headers df ;;;
    json_dump (to_dict_records df) cache_file ;;;
    ret (Some df)
  else ret None.

(** The body the two [query_headers] methods share; they differ in the
    name of the cache file and in the address they call. *)
Definition query_headers_at (cache_name path : string) (force : bool)
    : M (option (list header_row)) :=
  cache_dir <- gettempdir ;;
  let cache_file := os_path_join cache_dir cache_name in
  cached <- (if force then ret false else os_path_exists cache_file) ;;
  if cached then
    data <- json_load cache_file ;;
    df <- lift (pd_DataFrame_headers data) ;;
    set_headers df ;;;
    ret (Some df)
  else
    api_call_result <- do_api_call isoformat fromisoformat path None ;;
    headers_of_result cache_file api_call_result.

End HeaderCatalogue.

(** ** FIVEDBManager *)

Module FIVEDBManager.

(** lines 310-321; [system_type] stays the one of the base class. *)
Definition init (url path_to_credentials : string) : DBManagerBase :=
  mkManager url path_to_credentials None "unknown" []
    (list_to_map [("process_types", JArr []); ("parameters", JArr []);
                  ("cell_types", JArr []); ("stimulateds", JArr []);
                  ("patient_states", JArr []); ("products", JArr []);
                  ("daughter_cells", JArr []); ("regulators", JArr []);
                  ("modifiers", JArr [])]).

Section Methods.
Variable isoformat : datetime -> string.
Variable fromisoformat : string -> option parsed_datetime.

Local Abbreviation get_dictionary := (get_dictionary isoformat fromisoformat).

Definition get_process_types (force : bool) : M json :=
  get_dictionary "/api/v1/process_types" "process_types" force.

Definition get_parameters (force : bool) : M json :=
  get_dictionary "/api/v1/parameters" "parameters" force.

(** The first letter of both names is the Cyrillic one of the source. *)
Definition get_cell_types (force : bool) : M json :=
  get_dictionary "/api/v1/сell_types" "сell_types" force.

Definition get_stimulated (force : bool) : M json :=
  get_dictionary "/api/v1/stimulated" "stimulated" force.

Definition get_patient_states (force : bool) : M json :=
  get_dictionary "/api/v1/patient_states" "patient_states" force.

Definition get_products (force : bool) : M json :=
  get_dictionary "/api/v1/products" "products" force.

Definition get_daughter_cells (force : bool) : M json :=
  get_dictionary "/api/v1/daughter_cells" "daughter_cells" force.

Definition get_regulators (force : bool) : M json :=
  get_dictionary "/api/v1/regulators" "regulators" force.

Definition get_modifiers (force : bool) : M json :=
  get_dictionary "/api/v1/modifiers" "modifiers" force.

(** lines 350-359 *)
Definition load_dictionaries (force : bool) : M unit :=
  v <- get_process_types force ;; setattr "process_types" v ;;;
  v <- get_parameters force ;; setattr "parameters" v ;;;
  v <- get_cell_types force ;; setattr "cell_types" v ;;;
  v <- get_stimulated force ;; setattr "stimulateds" v ;;;
  v <- get_patient_states force ;; setattr "patient_states" v ;;;
  v <- get_products force ;; setattr "products" v ;;;
  v <- get_daughter_cells force ;; setattr "daughter_cells" v ;;;
  v <- get_regulators force ;; setattr "regulators" v ;;;
  v <- get_modifiers force ;; setattr "modifiers" v.

(** lines 361-395 *)
Definition select_process_types := select load_dictionaries "process_types" "process_types".
Definition select_parameters := select load_dictionaries "parameters" "parameters".
Definition select_cell_types := select load_dictionaries "cell_types" "cell_types".
Definition select_stimulated := select load_dictionaries "stimulateds" "stimulateds".
Definition select_patient_states := select load_dictionaries "patient_states" "patient_states".
Definition select_products := select load_dictionaries "products" "products".
Definition select_daughter_cells := select load_dictionaries "daughter_cells" "daughter_cells".
Definition select_regulators := select load_dictionaries "regulators" "regulators".
Definition select_modifiers := select load_dictionaries "modifiers" "modifiers".

(** The request parameters of lines 434-446, in the order of the dict. *)
Definition query_params (process_type parameter cell_type stimulated patient_state
    product daughter regulator modifier headers : list string)
    (wstat_switch : string) : list (string * string) :=
  [("process_type", join_comma process_type);
   ("parameter", join_comma parameter);
   ("cell_type", join_comma cell_type);
   ("stimulated", join_comma stimulated);
   ("patient_state", join_comma patient_state);
   ("product", join_comma product);
   ("daughter", join_comma daughter);
   ("regulator", join_comma regulator);
   ("modifier", join_comma modifier);
   ("headers", join_comma headers);
   ("wstatSwitch", wstat_switch)].

(** lines 433-453 *)
Definition query_data (process_type parameter cell_type stimulated patient_state
    product daughter regulator modifier headers : list string)
    (wstat_switch : string) : M (option DataFrame) :=
  let params := query_params process_type parameter cell_type stimulated
                  patient_state product daughter regulator modifier headers
                  wstat_switch in
  api_call_result <- do_api_call isoformat fromisoformat "/api/v1/query_data" (Some params) ;;
  if (status_code (response api_call_result) =? 200)%Z then
    data <- json_loads (content api_call_result) ;;
    table <- lift (pd_DataFrame data) ;;
    ret (Some table)
  else ret None.

(** lines 455-482 *)
Definition query_headers (force : bool) : M (option (list header_row)) :=
  query_headers_at isoformat fromisoformat "query_headers_5db.json"
    "/api/v1/query_data_headers" force.

End Methods.

End FIVEDBManager.

(** ** CytoconDBManager *)

Module CytoconDBManager.

(** lines 215-224 *)
Definition init (url path_to_credentials : string) : DBManagerBase :=
  mkManager url path_to_credentials None "cytocon" []
    (list_to_map [("diseases", JArr []); ("tissues_types", JArr []);
                  ("species", JArr []); ("markers", JArr []);
                  ("disease_attributes", JArr []);
                  ("patient_group_attributes", JArr [])]).

Section Methods.
Variable isoformat : datetime -> string.
Variable fromisoformat : string -> option parsed_datetime.

Local Abbreviation get_dictionary := (get_dictionary isoformat fromisoformat).

(** lines 226-232 *)
Definition load_dictionaries (force : bool) : M unit :=
  v <- get_dictionary "/api/v1/diseases" "diseases" force ;;
  setattr "diseases" v ;;;
  v <- get_dictionary "/api/v1/tissues_types" "tissues_types" force ;;
  setattr "tissues_types" v ;;;
  v <- get_dictionary "/api/v1/species" "species" force ;;
  setattr "species" v ;;;
  v <- get_dictionary "/api/v1/markers" "markers" force ;;
  setattr "markers" v ;;;
  v <- get_dictionary "/api/v1/disease_attributes" "disease_attributes" force ;;
  setattr "disease_attributes" v ;;;
  v <- get_dictionary "/api/v1/patient_group_attributes" "patient_group_attributes" force ;;
  setattr "patient_group_attributes" v.

(** lines 234-248 *)
Definition select_diseases := select load_dictionaries "diseases" "diseases".
Definition select_tissues_types := select load_dictionaries "tissues_types" "tissues types".
Definition select_species := select load_dictionaries "species" "species".
Definition select_markers := select load_dictionaries "markers" "markers".

(** The request parameters of lines 267-274, in the order of the dict. *)
Definition query_params (species tissue_types diseases markers headers : list string)
    (wstat_switch : string) : list (string * string) :=
  [("tissue_types", join_comma tissue_types);
   ("diseases", join_comma diseases);
   ("species", join_comma species);
   ("markers", join_comma markers);
   ("headers", join_comma headers);
   ("wstatSwitch", wstat_switch)].

(** lines 266-280 *)
Definition query_data (species tissue_types diseases markers headers : list string)
    (wstat_switch : string) : M (option DataFrame) :=
  let params := query_params species tissue_types diseases markers headers
                  wstat_switch in
  api_call_result <- do_api_call isoformat fromisoformat "/api/v1/query_data" (Some params) ;;
  if (status_code (response api_call_result) =? 200)%Z then
    data <- json_loads (content api_call_result) ;;
    table <- lift (pd_DataFrame data) ;;
    ret (Some table)
  else ret None.

(** lines 282-306; [diseases] is formatted into the name of the cache
    file and into the address. *)
Definition query_headers (diseases : string) (force : bool)
    : M (option (list header_row)) :=
  query_headers_at isoformat fromisoformat ("query_headers_" ++ diseases ++ ".json")
    ("/api/v1/query_data_headers?diseases=" ++ diseases) force.

End Methods.

End CytoconDBManager.

(** * Vocabulary of the statements *)

(** The file in which the manager of a state caches its token. *)
Definition token_file_path (s : state) : string :=
  os_path_join (tempdir (fst s)) ("token_cache_" ++ system_type (snd s) ++ ".json").

(** The file in which a dictionary is cached. *)
Definition cache_file_path (s : state) (dictionary_name : string) : string :=
  os_path_join (tempdir (fst s)) (dictionary_name ++ ".json").

(** The password-grant request for the given credentials. *)
Definition token_request (s : state) (username password : string) : request :=
  POST (url (snd s) ++ "/oauth/token")
    [("grant_type", "password"); ("client_id", username);
     ("client_secret", password); ("username", username);
     ("password", password)].

(** The first line of the credentials file gives a user name and a password. *)
Definition credentials_are (s : state) (username password : string) : Prop :=
  exists rest, fs (fst s) !! path_to_credentials (snd s)
               = Some (TextFile (username :: password :: rest)).

(** The token cache holds an object whose stored expiry decodes to the
    naive date [expiry]. *)
Definition cached_expiry (fromisoformat : string -> option parsed_datetime)
    (s : state) (members : list (string * json)) (expiry : datetime) : Prop :=
  exists stored,
    fs (fst s) !! token_file_path s = Some (JsonFile (JObj members)) /\
    dict_get "expires_in" members = Some (JStr stored) /\
    fromisoformat stored = Some (Naive expiry).

(** [cache_stale s s1]: the cache of [s] gives no usable token, either for
    want of an entry or because the stored expiry is not later than the
    clock; [s1] is the state in which the token is then requested (the
    clock has been read once if there was an entry). *)
Inductive cache_stale (fromisoformat : string -> option parsed_datetime) (s : state)
    : state -> Prop :=
| stale_absent :
    fs (fst s) !! token_file_path s = None ->
    cache_stale fromisoformat s s
| stale_expired members expiry :
    cached_expiry fromisoformat s members expiry ->
    (expiry <= clock (fst s) (ticks (fst s)))%Z ->
    cache_stale fromisoformat s (with_ticks (S (ticks (fst s))) (fst s), snd s).

(** The token a manager holds is usable. *)
Definition holds_token (s : state) (t : BearerRequestToken) : Prop :=
  self_token (snd s) = Some t /\ truthy (token t) = true.

(** The marker of a failed authentication (line 115). *)
Definition invalid_token (answer : Response) : BearerRequestToken :=
  mkBearerRequestToken (JStr "") None (Some answer).

(** No usable token is held: [is_authenticated] answers no. *)
Definition no_usable_token (s : state) : Prop :=
  match self_token (snd s) with
  | Some t => truthy (token t) = false
  | None => True
  end.

(** The request [do_api_call] sends with the token it holds. *)
Definition api_request (s : state) (path : string)
    (params : option (list (string * string))) (t : BearerRequestToken) : request :=
  GET (url (snd s) ++ path) params (token t).

(** What [do_api_call] makes of the answer (lines 137-141). *)
Definition api_result (answer : Response) : APICallResult :=
  if (status_code answer =? 200)%Z
  then mkAPICallResult (response_text answer) answer
  else mkAPICallResult NotJson answer.

(** [get_dictionary] goes to the API: it is forced to, or the cache has
    no entry for the name. *)
Definition fetches (s : state) (dictionary_name : string) (force : bool) : Prop :=
  force = true \/ fs (fst s) !! cache_file_path s dictionary_name = None.

(** The state after [json.dump] of a dictionary to its cache file. *)
Definition with_cached (s : state) (dictionary_name : string) (value : json) : state :=
  (with_fs (<[cache_file_path s dictionary_name := JsonFile value]> (fs (fst s))) (fst s),
   snd s).

(** The [Name] of a list item, [None] when it has none (line 162). *)
Definition name_of (members : list (string * json)) : json :=
  default JNull (dict_get "Name" members).

(** Neither a list nor an object. *)
Definition scalar (v : json) : Prop :=
  match v with
  | JArr _ | JObj _ => False
  | JNull | JBool _ | JInt _ | JStr _ => True
  end.

(** Following the words of the specification: the two shapes it accepts
    for a dictionary, a list of objects each exposing a [Name] field, or a
    single object exposing a [Name] field. *)
Definition exposes_name (v : json) : bool :=
  match v with
  | JObj members => bool_decide (is_Some (dict_get "Name" members))
  | _ => false
  end.

Definition accepted_shape (v : json) : bool :=
  match v with
  | JArr items => forallb exposes_name items
  | JObj _ => exposes_name v
  | _ => false
  end.

(** The variable of the first row of the catalogue whose description is
    [desc]. *)
Definition header_variable (df : list header_row) (desc : string) : option string :=
  ColumnVariable <$> List.find (fun row => String.eqb (ColumnDesc row) desc) df.

(** The requested descriptions that no row of the catalogue has. *)
Definition absent_descriptions (df : list header_row) (descs : list string) : list string :=
  List.filter (fun desc => negb (existsb (fun row => String.eqb (ColumnDesc row) desc) df))
    descs.

(** The values an error message names. *)
Definition named_by (e : exn) : list string :=
  match e with
  | ValueError (ColumnNotFound desc) => [desc]
  | ValueError (NotFound _ missing) => elements missing
  | _ => []
  end.

(** What a query is bound to do in a state that holds the token [t]: one
    request to the query endpoint with the given parameters; [None] when
    the answer is not a 200, the rows of the payload when it is a 200 with
    a list of row objects that share their keys and hold no null. *)
Definition query_contract (s : state) (t : BearerRequestToken)
    (params : list (string * string)) (query : M (option DataFrame)) : Prop :=
  let get := api_request s "/api/v1/query_data" (Some params) t in
  let answer := server (fst s) (net_log (fst s) ++ [get]) in
  let s1 := (with_net_log (net_log (fst s) ++ [get]) (fst s), snd s) in
  net_log (fst (snd (query s))) = (net_log (fst s) ++ [get])%list /\
  (status_code answer <> 200%Z -> query s = (Ret None, s1)) /\
  (forall rows,
      status_code answer = 200%Z ->
      response_text answer = Encodes (JArr (JObj <$> rows)) ->
      tabular rows = true ->
      query s = (Ret (Some rows), s1)).

(** The vocabulary axes of the two managers, to speak of all the
    [select_*] methods at once. *)
Inductive axis : Type :=
| ProcessTypes | Parameters | CellTypes | Stimulated | PatientStates
| Products | DaughterCells | Regulators | Modifiers
| Diseases | TissuesTypes | Species | Markers.

(** The attribute that holds the dictionary of an axis. *)
Definition attribute_of (a : axis) : string :=
  match a with
  | ProcessTypes => "process_types"
  | Parameters => "parameters"
  | CellTypes => "cell_types"
  | Stimulated => "stimulateds"
  | PatientStates => "patient_states"
  | Products => "products"
  | DaughterCells => "daughter_cells"
  | Regulators => "regulators"
  | Modifiers => "modifiers"
  | Diseases => "diseases"
  | TissuesTypes => "tissues_types"
  | Species => "species"
  | Markers => "markers"
  end.

(** The caption its [select_*] method passes on. *)
Definition caption_of (a : axis) : string :=
  match a with
  | TissuesTypes => "tissues types"
  | _ => attribute_of a
  end.

(** The [load_dictionaries] of the manager the axis belongs to. *)
Definition load_dictionaries_of isoformat fromisoformat (a : axis) : bool -> M unit :=
  match a with
  | Diseases | TissuesTypes | Species | Markers =>
      CytoconDBManager.load_dictionaries isoformat fromisoformat
  | _ => FIVEDBManager.load_dictionaries isoformat fromisoformat
  end.

(** The [select_*] method of an axis. *)
Definition select_axis isoformat fromisoformat (a : axis) : list string -> M (list string) :=
  match a with
  | ProcessTypes => FIVEDBManager.select_process_types isoformat fromisoformat
  | Parameters => FIVEDBManager.select_parameters isoformat fromisoformat
  | CellTypes => FIVEDBManager.select_cell_types isoformat fromisoformat
  | Stimulated => FIVEDBManager.select_stimulated isoformat fromisoformat
  | PatientStates => FIVEDBManager.select_patient_states isoformat fromisoformat
  | Products => FIVEDBManager.select_products isoformat fromisoformat
  | DaughterCells => FIVEDBManager.select_daughter_cells isoformat fromisoformat
  | Regulators => FIVEDBManager.select_regulators isoformat fromisoformat
  | Modifiers => FIVEDBManager.select_modifiers isoformat fromisoformat
  | Diseases => CytoconDBManager.select_diseases isoformat fromisoformat
  | TissuesTypes => CytoconDBManager.select_tissues_types isoformat fromisoformat
  | Species => CytoconDBManager.select_species isoformat fromisoformat
  | Markers => CytoconDBManager.select_markers isoformat fromisoformat
  end.

(** A request to the query endpoint of the database at [base]. *)
Definition query_call (base : string) (r : request) : Prop :=
  match r with
  | GET to _ _ => to = base ++ "/api/v1/query_data"
  | POST _ _ => False
  end.

(** A method is [quiet] when, run by a manager of the database at [base],
    it keeps the address of the database and sends no request to the query
    endpoint. *)
Definition quiet (base : string) {A} (m : M A) : Prop :=
  forall s, url (snd s) = base ->
    url (snd (snd (m s))) = base /\
    exists sent, net_log (fst (snd (m s))) = (net_log (fst s) ++ sent)%list /\
                 Forall (fun r => ~ query_call base r) sent.

(** * States of the examples *)

(** A codec of dates for the examples: a date is written as the decimal
    numeral of its count of microseconds, and read as an aware date when a
    Z follows. *)
Definition demo_isoformat (t : datetime) : string :=
  NilZero.string_of_int (Z.to_int t).

Arguments demo_isoformat t%_Z.

(** The date a numeral stands for, when it is one. *)
Definition demo_date (numeral : string) : option datetime :=
  match NilZero.int_of_string numeral with
  | Some n => if is_datetime (Z.of_int n) then Some (Z.of_int n) else None
  | None => None
  end.

(** The text before a final Z, the mark of UTC. *)
Fixpoint without_Z (stored : string) : option string :=
  match stored with
  | EmptyString => None
  | String c EmptyString => if Ascii.eqb c "Z"%char then Some EmptyString else None
  | String c rest => String c <$> without_Z rest
  end.

Definition demo_fromisoformat (stored : string) : option parsed_datetime :=
  match without_Z stored with
  | Some numeral => (fun _ => Aware) <$> demo_date numeral
  | None => Naive <$> demo_date stored
  end.

(** The clock of the examples starts at 500 s and gains a second at each
    reading. *)
Definition demo_clock (n : nat) : datetime := (1000000 * (500 + Z.of_nat n))%Z.

Definition demo_grant : Response :=
  mkResponse 200 (Encodes (JObj [("access_token", JStr "abc"); ("expires_in", JInt 3600)])).

(** A server that grants every token request and answers every other
    request with [get_answer]. *)
Definition granting_server (get_answer : Response) (history : list request) : Response :=
  match last history with
  | Some (POST _ _) => demo_grant
  | _ => get_answer
  end.

(** A server that refuses every request. *)
Definition refusing_server (history : list request) : Response :=
  mkResponse 401 NotJson.

Definition demo_credentials : gmap string file :=
  {[ "credentials.txt" := TextFile ["alice"; "secret"] ]}.

(** A token cache whose entry expires at [expiry]. *)
Definition demo_token_cache (expiry : datetime) : gmap string file :=
  <[ "/tmp/token_cache_unknown.json" :=
       JsonFile (JObj [("token", JStr "old"); ("expires_in", JStr (demo_isoformat expiry))]) ]>
    demo_credentials.

Arguments demo_token_cache expiry%_Z.

Definition demo_manager : DBManagerBase :=
  FIVEDBManager.init "https://fivedb.example" "credentials.txt".

Definition demo_token : BearerRequestToken :=
  mkBearerRequestToken (JStr "abc") (Some 4100000000%Z) None.

(** The manager after it loaded the process types and a header catalogue,
    holding a token. *)
Definition loaded_manager : DBManagerBase :=
  mkManager "https://fivedb.example" "credentials.txt" (Some demo_token) "unknown"
    [mkHeader "Parameter" "param"; mkHeader "Parameter value" "param_val"]
    (<["process_types" := JArr [JStr "Migration"; JStr "Proliferation"]]>
       (attributes demo_manager)).

Definition demo_state (files : gmap string file) (answers : list request -> Response)
    (self : DBManagerBase) : state :=
  (mkWorld "/tmp" files demo_clock 0 answers [], self).

(** The cache entry has not expired, it has expired, there is none. *)
Definition fresh_cache_state (answers : list request -> Response) : state :=
  demo_state (demo_token_cache 900000000) answers demo_manager.

Definition stale_cache_state (answers : list request -> Response) : state :=
  demo_state (demo_token_cache 400000000) answers demo_manager.

Definition no_cache_state (answers : list request -> Response) : state :=
  demo_state demo_credentials answers demo_manager.

(** The state after one reading of the clock. *)
Definition after_reading (s : state) : state :=
  (with_ticks (S (ticks (fst s))) (fst s), snd s).

Definition not_found : Response := mkResponse 404 NotJson.

Definition demo_rows : list (list (string * json)) :=
  [[("param", JStr "Emax"); ("param_val", JStr "1.2")]].

(** The manager holds a token, and the server answers every request but
    a token request with [get_answer]. *)
Definition loaded_state (get_answer : Response) : state :=
  demo_state demo_credentials (granting_server get_answer) loaded_manager.

(** The state after the one request [loaded_state] sends to [path]. *)
Definition loaded_state_after (get_answer : Response) (path : string)
    (params : option (list (string * string))) : state :=
  (with_net_log [GET ("https://fivedb.example" ++ path) params (JStr "abc")]
     (fst (loaded_state get_answer)),
   loaded_manager).

Definition ok (payload : json) : Response := mkResponse 200 (Encodes payload).

(** A manager of the other database, holding a token. *)
Definition cytocon_state (get_answer : Response) : state :=
  demo_state demo_credentials (granting_server get_answer)
    (with_token demo_token
       (CytoconDBManager.init "https://cytocon.example" "credentials.txt")).

(** * Vocabulary of the further properties *)

(** The error [request_auth_token] raises on a token cache file in which
    it reads no expiry (lines 66-68). *)
Definition cache_error (f : file) : exn :=
  match f with
  | TextFile _ => JSONDecodeError
  | JsonFile (JObj members) =>
      match dict_get "expires_in" members with
      | None => KeyError "expires_in"
      | Some (JStr _) => ValueError InvalidIsoformat
      | Some _ => TypeError
      end
  | JsonFile _ => TypeError
  end.

(** The expiry a token cache file stores, when it stores one. *)
Definition stored_expiry (fromisoformat : string -> option parsed_datetime) (f : file)
    : option parsed_datetime :=
  match f with
  | JsonFile (JObj members) =>
      match dict_get "expires_in" members with
      | Some (JStr stored) => fromisoformat stored
      | _ => None
      end
  | _ => None
  end.

(** [self.name = value] on the manager. *)
Definition with_attribute (name : string) (value : json) (self : DBManagerBase)
    : DBManagerBase :=
  mkManager (url self) (path_to_credentials self) (self_token self)
    (system_type self) (headers_df self) (<[name := value]> (attributes self)).

Definition is_object (v : json) : bool :=
  match v with
  | JObj _ => true
  | _ => false
  end.

(** The dictionaries of the FIVE manager in the order [load_dictionaries]
    takes them: the address, the name of the cache, the attribute. *)
Definition five_dictionaries : list (string * string * string) :=
  [("/api/v1/process_types", "process_types", "process_types");
   ("/api/v1/parameters", "parameters", "parameters");
   ("/api/v1/сell_types", "сell_types", "cell_types");
   ("/api/v1/stimulated", "stimulated", "stimulateds");
   ("/api/v1/patient_states", "patient_states", "patient_states");
   ("/api/v1/products", "products", "products");
   ("/api/v1/daughter_cells", "daughter_cells", "daughter_cells");
   ("/api/v1/regulators", "regulators", "regulators");
   ("/api/v1/modifiers", "modifiers", "modifiers")].

(** The server answers no request with a 200. *)
Definition unavailable (s : state) : Prop :=
  forall history, status_code (server (fst s) history) <> 200%Z.
(** The state after a dictionary request that the server refused: the
    request is in the log and the attribute holds [None]. *)
Definition refused_step (t : BearerRequestToken) (s : state) (entry : string * string * string)
    : state :=
  (with_net_log (net_log (fst s) ++ [api_request s entry.1.1 None t]) (fst s),
   with_attribute entry.2 JNull (snd s)).

(** The state after a dictionary was read from its cache. *)
Definition cached_step (value : string -> json) (s : state) (entry : string * string * string)
    : state :=
  (fst s, with_attribute entry.2 (value entry.1.2) (snd s)).

(** The answer of the server to the query with the parameters [params],
    sent with the token [t], is a 200 whose text is not JSON. *)
Definition garbled_query (s : state) (t : BearerRequestToken)
    (params : list (string * string)) : Prop :=
  let get := api_request s "/api/v1/query_data" (Some params) t in
  let answer := server (fst s) (net_log (fst s) ++ [get]) in
  status_code answer = 200%Z /\ response_text answer = NotJson.

(** The axes of the FIVE manager. *)
Definition five_axis (a : axis) : bool :=
  match a with
  | Diseases | TissuesTypes | Species | Markers => false
  | _ => true
  end.

Fixpoint has_char (c : ascii) (name : string) : bool :=
  match name with
  | EmptyString => false
  | String c' rest => Ascii.eqb c c' || has_char c rest
  end.

(** A file name of POSIX: not empty, of 255 bytes at most, without [/] and
    without NUL, and neither [.] nor [..].  Joined to the temp directory it
    is the path of a file of this directory, which [open] can create. *)
Definition is_file_name (name : string) : bool :=
  negb (String.eqb name "") && negb (String.eqb name ".") && negb (String.eqb name "..")
  && Nat.leb (String.length name) 255
  && negb (has_char "/"%char name) && negb (has_char Ascii.zero name).

(** The file in which [query_headers] caches the catalogue named
    [cache_name]. *)
Definition headers_file (s : state) (cache_name : string) : string :=
  os_path_join (tempdir (fst s)) cache_name.

(** What [query_headers] makes a table of: the decoded answer when it is a
    list, else the list of this one answer (lines 297-300 and 473-476). *)
Definition records_in (response_content : json) : json :=
  match response_content with
  | JArr _ => response_content
  | _ => JArr [response_content]
  end.

(** The state after the catalogue [df] was fetched by the request [get]
    and stored in [cache_file]. *)
Definition with_catalogue (s : state) (get : request) (cache_file : string)
    (df : list header_row) : state :=
  (with_fs (<[cache_file := JsonFile (to_dict_records df)]> (fs (fst s)))
     (with_net_log (net_log (fst s) ++ [get]) (fst s)),
   with_headers df (snd s)).

(** ** Further states of the examples *)

(** A manager that holds a token, before a server of any kind. *)
Definition answering_state (answers : list request -> Response) : state :=
  demo_state demo_credentials answers loaded_manager.


(** The token cache holds an entry with no expiry. *)
Definition broken_cache_state : state :=
  demo_state (<[ "/tmp/token_cache_unknown.json" := JsonFile (JObj [("token", JStr "old")]) ]>
                demo_credentials)
    refusing_server demo_manager.

(** No credentials file and no token cache. *)
Definition missing_credentials_state : state :=
  demo_state ∅ refusing_server demo_manager.

(** The cache file of the parameters is not JSON. *)
Definition corrupt_cache_state (get_answer : Response) : state :=
  demo_state (<[ "/tmp/parameters.json" := TextFile ["garbage"] ]> demo_credentials)
    (granting_server get_answer) loaded_manager.

(** Every dictionary of the FIVE manager is cached, each as the list of
    its own name; the manager is new and the server refuses. *)
Definition demo_dictionary (dictionary_name : string) : json := JArr [JStr dictionary_name].

Definition cached_dictionaries_state : state :=
  demo_state
    (list_to_map ((fun entry : string * string * string =>
                     ("/tmp/" ++ entry.1.2 ++ ".json", JsonFile (demo_dictionary entry.1.2)))
                  <$> five_dictionaries))
    refusing_server demo_manager.

(** The token cache holds an entry whose expiry, at 900 s, is marked as
    UTC. *)
Definition aware_cache_state : state :=
  demo_state (<[ "/tmp/token_cache_unknown.json" :=
                   JsonFile (JObj [("token", JStr "old"); ("expires_in", JStr "900000000Z")]) ]>
                demo_credentials)
    refusing_server demo_manager.

(** A server that grants every request a token for 10^12 seconds, a
    lifetime that ends after year 9999. *)
Definition eternal_grant : Response :=
  mkResponse 200 (Encodes (JObj [("access_token", JStr "abc");
                                 ("expires_in", JInt 1000000000000)])).

Definition eternal_server (history : list request) : Response := eternal_grant.

Definition demo_headers : list header_row :=
  [mkHeader "Parameter" "param"; mkHeader "Parameter value" "param_val"].

(** The header catalogue is cached; the manager is new and the server
    refuses. *)
Definition cached_headers_state : state :=
  demo_state (<[ "/tmp/query_headers_5db.json" := JsonFile (to_dict_records demo_headers) ]>
                demo_credentials)
    refusing_server demo_manager.

(** * Properties *)

(** Running a method on a state given by its parts: the definitions of the
    monad and of the library calls are unfolded, and the projections of
    the states built on the way are computed. *)
Ltac exec :=
  cbv [bind ret raise lift get_world get_self put_world put_self
       try_except_JSONDecodeError datetime_now gettempdir os_path_exists
       os_remove json_load json_dump readline_strip_split send requests_post
       requests_get json_loads list_item py_contains py_getitem py_int
       set_token setattr getattr py_fromisoformat datetime_add_seconds
       get_auth_token_path
       self_token_token is_authenticated extract_names check_dictionary];
  cbn [fst snd tempdir fs clock ticks server net_log url path_to_credentials
       self_token system_type headers_df attributes with_fs with_ticks
       with_net_log with_token token expires_in token_response content
       response status_code response_text negb andb orb lookup list_lookup].

(** A case analysis on the innermost scrutinee of the goal. *)
Ltac split_case :=
  match goal with
  | |- context [match ?x with _ => _ end] =>
      lazymatch x with
      | context [match _ with _ => _ end] => fail
      | _ => destruct x eqn:?
      end
  end.

Ltac split_cases := repeat (exec; split_case); exec.

(** ** Facts on decoded objects *)

Lemma py_in_dict_get_Some key members v :
  dict_get key members = Some v -> py_in key (JObj members) = true.
Proof.
  simpl. induction members as [|[k x] rest IH]; simpl; [discriminate|].
  destruct (String.eqb key k); [reflexivity|]. exact IH.
Qed.

Lemma py_in_dict_get_None key members :
  dict_get key members = None -> py_in key (JObj members) = false.
Proof.
  simpl. induction members as [|[k x] rest IH]; simpl; [reflexivity|].
  destruct (String.eqb key k); [discriminate|]. exact IH.
Qed.

(** ** The authenticator *)

Section Authenticator.
Variable isoformat : datetime -> string.
Variable fromisoformat : string -> option parsed_datetime.

(** A cached token that has not expired is returned, and nothing but the
    clock and [self.token] changes. *)
Lemma request_auth_token_cached s members expiry cached :
  cached_expiry fromisoformat s members expiry ->
  dict_get "token" members = Some cached ->
  (expiry > clock (fst s) (ticks (fst s)))%Z ->
  let t := mkBearerRequestToken cached (Some expiry) None in
  request_auth_token isoformat fromisoformat s
  = (Ret t, (with_ticks (S (ticks (fst s))) (fst s), with_token t (snd s))).
Proof.
  destruct s as [w self]. intros (stored & Hf & He & Hi) Ht Hlt t. subst t.
  unfold token_file_path in Hf. simpl in Hf, Hlt.
  unfold request_auth_token, check_token_cache.
  exec. rewrite Hf.
  rewrite bool_decide_eq_true_2 by eauto.
  exec. rewrite Hf. exec. rewrite He. exec. rewrite Hi. exec.
  apply Z.gt_lt, Z.gtb_lt in Hlt. rewrite Hlt. exec. rewrite Ht. reflexivity.
Qed.

(** Without a usable cached token, the token is requested. *)
Lemma request_auth_token_stale s s1 :
  cache_stale fromisoformat s s1 ->
  request_auth_token isoformat fromisoformat s = request_new_token isoformat (token_file_path s) s1.
Proof.
  destruct s as [w self]. intros [Hf | members expiry (stored & Hf & He & Hi) Hle];
    unfold token_file_path in *; simpl in *;
    unfold request_auth_token, check_token_cache;
    exec; rewrite Hf.
  - rewrite bool_decide_eq_false_2 by (intros [x Hx]; discriminate). reflexivity.
  - rewrite bool_decide_eq_true_2 by eauto.
    exec. rewrite Hf. exec. rewrite He. exec. rewrite Hi. exec.
    rewrite Z.gtb_ltb. apply Z.ltb_ge in Hle. rewrite Hle.
    reflexivity.
Qed.

(** The three ways a token request ends. *)
Lemma request_new_token_failed s username password path :
  credentials_are s username password ->
  let post := token_request s username password in
  let answer := server (fst s) (net_log (fst s) ++ [post]) in
  status_code answer <> 200%Z ->
  request_new_token isoformat path s
  = (Ret (invalid_token answer),
     (with_net_log (net_log (fst s) ++ [post]) (fst s),
      with_token (invalid_token answer) (snd s))).
Proof.
  destruct s as [w self]. intros [rest Hc] post answer Hs.
  subst post answer. unfold token_request in *. simpl in Hc, Hs.
  unfold request_new_token. exec. rewrite Hc. exec.
  apply Z.eqb_neq in Hs. rewrite Hs. reflexivity.
Qed.

Lemma request_new_token_granted s username password path data access seconds :
  credentials_are s username password ->
  let post := token_request s username password in
  let answer := server (fst s) (net_log (fst s) ++ [post]) in
  status_code answer = 200%Z ->
  response_text answer = Encodes (JObj data) ->
  dict_get "access_token" data = Some access ->
  dict_get "expires_in" data = Some (JInt seconds) ->
  let expiry := (clock (fst s) (ticks (fst s)) + timedelta_seconds seconds)%Z in
  is_datetime expiry = true ->
  let t := mkBearerRequestToken access (Some expiry) (Some answer) in
  request_new_token isoformat path s
  = (Ret t,
     (with_fs (<[path := JsonFile (JObj [("token", access);
                                         ("expires_in", JStr (isoformat expiry))])]>
                 (fs (fst s)))
        (with_ticks (S (ticks (fst s)))
           (with_net_log (net_log (fst s) ++ [post]) (fst s))),
      with_token t (snd s))).
Proof.
  destruct s as [w self]. intros [rest Hc] post answer Hs Hbody Ha He expiry Hrange t.
  subst t expiry post answer. unfold token_request in *. simpl in Hc, Hs, Hbody |- *.
  cbn [fst clock ticks] in Hrange.
  unfold request_new_token. exec. rewrite Hc. exec.
  rewrite Hs, Hbody. cbn [Z.eqb Pos.eqb]. exec.
  rewrite (py_in_dict_get_Some _ _ _ Ha), (py_in_dict_get_Some _ _ _ He).
  exec. rewrite He. exec. rewrite Hrange. exec. rewrite Ha. reflexivity.
Qed.

(** A lifetime that takes the expiry out of the dates: the request was
    sent and the clock read, and neither the token of the manager nor a
    file is touched. *)
Lemma request_new_token_overflow s username password path data seconds :
  credentials_are s username password ->
  let post := token_request s username password in
  let answer := server (fst s) (net_log (fst s) ++ [post]) in
  status_code answer = 200%Z ->
  response_text answer = Encodes (JObj data) ->
  is_Some (dict_get "access_token" data) ->
  dict_get "expires_in" data = Some (JInt seconds) ->
  is_datetime (clock (fst s) (ticks (fst s)) + timedelta_seconds seconds) = false ->
  request_new_token isoformat path s
  = (Raise OverflowError,
     (with_ticks (S (ticks (fst s))) (with_net_log (net_log (fst s) ++ [post]) (fst s)),
      snd s)).
Proof.
  destruct s as [w self]. intros [rest Hc] post answer Hs Hbody [access Ha] He Hrange.
  subst post answer. unfold token_request in *. simpl in Hc, Hs, Hbody |- *.
  cbn [fst clock ticks] in Hrange.
  unfold request_new_token. exec. rewrite Hc. exec.
  rewrite Hs, Hbody. cbn [Z.eqb Pos.eqb]. exec.
  rewrite (py_in_dict_get_Some _ _ _ Ha), (py_in_dict_get_Some _ _ _ He).
  exec. rewrite He. exec. rewrite Hrange. reflexivity.
Qed.

Lemma request_new_token_incomplete s username password path data :
  credentials_are s username password ->
  let post := token_request s username password in
  let answer := server (fst s) (net_log (fst s) ++ [post]) in
  status_code answer = 200%Z ->
  response_text answer = Encodes (JObj data) ->
  dict_get "access_token" data = None \/ dict_get "expires_in" data = None ->
  request_new_token isoformat path s
  = (Raise (ValueError TokenFieldsMissing),
     (with_net_log (net_log (fst s) ++ [post]) (fst s), snd s)).
Proof.
  destruct s as [w self]. intros [rest Hc] post answer Hs Hbody Hmiss.
  subst post answer. unfold token_request in *. simpl in Hc, Hs, Hbody |- *.
  unfold request_new_token. exec. rewrite Hc. exec.
  rewrite Hs, Hbody. exec.
  destruct (dict_get "access_token" data) as [a|] eqn:Ha.
  - destruct Hmiss as [Hm | Hm]; [discriminate|].
    rewrite (py_in_dict_get_Some _ _ _ Ha), (py_in_dict_get_None _ _ Hm). reflexivity.
  - rewrite (py_in_dict_get_None _ _ Ha). reflexivity.
Qed.

(** Whatever the server answers, a token request is one request. *)
Lemma request_new_token_sends_once s username password path :
  credentials_are s username password ->
  net_log (fst (snd (request_new_token isoformat path s)))
  = (net_log (fst s) ++ [token_request s username password])%list.
Proof.
  destruct s as [w self]. intros [rest Hc]. unfold token_request. simpl in Hc |- *.
  unfold request_new_token. exec. rewrite Hc. split_cases; reflexivity.
Qed.

(** The file system changes only when a token request was answered 200. *)
Lemma request_auth_token_writes_on_200 s :
  let s' := snd (request_auth_token isoformat fromisoformat s) in
  fs (fst s') = fs (fst s) \/
  exists post, net_log (fst s') = (net_log (fst s) ++ [post])%list /\
               status_code (server (fst s) (net_log (fst s'))) = 200%Z.
Proof.
  destruct s as [w self]. simpl.
  unfold request_auth_token, check_token_cache, request_new_token.
  split_cases; auto.
  all: try (right; eexists; split; [reflexivity|]; apply Z.eqb_eq; assumption).
Qed.

(** The check of the cache leaves all but the clock as it was. *)
Lemma cache_stale_frame s s1 :
  cache_stale fromisoformat s s1 ->
  snd s1 = snd s /\ fs (fst s1) = fs (fst s) /\ net_log (fst s1) = net_log (fst s) /\
  server (fst s1) = server (fst s) /\ tempdir (fst s1) = tempdir (fst s) /\
  clock (fst s1) = clock (fst s).
Proof. intros [Hf | members expiry Hc Hle]; simpl; auto 10. Qed.

Lemma cache_stale_credentials s s1 username password :
  cache_stale fromisoformat s s1 ->
  credentials_are s username password ->
  credentials_are s1 username password /\
  token_request s1 username password = token_request s username password.
Proof.
  intros Hs Hc. destruct (cache_stale_frame _ _ Hs) as (Hself & Hfs & _).
  unfold credentials_are, token_request. rewrite Hself, Hfs. auto.
Qed.

(** *** reset_auth_token *)

Lemma reset_auth_token_deletes s :
  reset_auth_token s
  = (Ret tt, (with_fs (delete (token_file_path s) (fs (fst s))) (fst s), snd s)).
Proof.
  destruct s as [w self]. unfold reset_auth_token, token_file_path. exec.
  destruct (fs w !! _) as [f|] eqn:Hf.
  - rewrite bool_decide_eq_true_2 by eauto. exec. rewrite Hf. reflexivity.
  - rewrite bool_decide_eq_false_2 by (intros [x Hx]; discriminate). exec.
    rewrite (delete_id _ _ Hf). destruct w; reflexivity.
Qed.

(** *** do_api_call *)

Lemma do_api_call_with_token s t path params :
  holds_token s t ->
  let get := api_request s path params t in
  let answer := server (fst s) (net_log (fst s) ++ [get]) in
  do_api_call isoformat fromisoformat path params s
  = (Ret (api_result answer), (with_net_log (net_log (fst s) ++ [get]) (fst s), snd s)).
Proof.
  destruct s as [w self]. intros [Ht Htruthy] get answer. subst get answer.
  unfold api_request, api_result. simpl in Ht |- *.
  unfold do_api_call. exec. rewrite Ht. exec. rewrite Htruthy. exec. rewrite Ht. exec.
  destruct (status_code _ =? 200)%Z; reflexivity.
Qed.

Lemma do_api_call_not_authenticated s s1 username password path params :
  no_usable_token s ->
  cache_stale fromisoformat s s1 ->
  credentials_are s username password ->
  let post := token_request s username password in
  let answer := server (fst s) (net_log (fst s) ++ [post]) in
  status_code answer <> 200%Z ->
  do_api_call isoformat fromisoformat path params s
  = (Raise (Exception NotAuthenticated),
     (with_net_log (net_log (fst s) ++ [post]) (fst s1),
      with_token (invalid_token answer) (snd s))).
Proof.
  intros Hno Hstale Hc post answer Hs.
  destruct (cache_stale_credentials _ _ _ _ Hstale Hc) as [Hc1 Hreq].
  destruct (cache_stale_frame _ _ Hstale) as (Hself & _ & Hlog & Hsrv & _).
  assert (Hnew := request_new_token_failed s1 username password (token_file_path s) Hc1).
  cbv zeta in Hnew. rewrite Hreq, Hlog, Hsrv in Hnew. specialize (Hnew Hs).
  assert (Hauth := request_auth_token_stale _ _ Hstale). rewrite Hnew in Hauth.
  rewrite Hself in Hauth.
  unfold do_api_call, bind at 1. unfold is_authenticated, bind at 1, get_self, ret.
  unfold no_usable_token in Hno.
  replace (match self_token s.2 with Some t => truthy (token t) | None => false end)
    with false by (destruct (self_token s.2); auto).
  cbn [negb]. unfold bind at 1. unfold bind at 1. unfold bind at 1.
  rewrite Hauth. reflexivity.
Qed.

(** *** The claims on the token cache *)

(** C2. A cached token whose stored expiry, a naive date, is strictly
    later than the clock is returned as it is, and no request is sent.
    When the cache has no entry or its expiry is not later than the clock,
    exactly one token request is sent, whatever the server answers; and
    when the server grants a token with a lifetime in seconds, and the
    clock, read then, plus that lifetime is a date of [datetime], this is
    the expiry, the cache file is overwritten with the token and the
    expiry, and the token is returned. *)
Theorem request_auth_token_cache_policy s :
  (forall members expiry cached,
      cached_expiry fromisoformat s members expiry ->
      dict_get "token" members = Some cached ->
      (expiry > clock (fst s) (ticks (fst s)))%Z ->
      let r := request_auth_token isoformat fromisoformat s in
      fst r = Ret (mkBearerRequestToken cached (Some expiry) None) /\
      net_log (fst (snd r)) = net_log (fst s) /\
      fs (fst (snd r)) = fs (fst s))
  /\
  (forall s1 username password,
      cache_stale fromisoformat s s1 ->
      credentials_are s username password ->
      let post := token_request s username password in
      let answer := server (fst s) (net_log (fst s) ++ [post]) in
      let r := request_auth_token isoformat fromisoformat s in
      net_log (fst (snd r)) = (net_log (fst s) ++ [post])%list /\
      forall data access seconds,
        status_code answer = 200%Z ->
        response_text answer = Encodes (JObj data) ->
        dict_get "access_token" data = Some access ->
        dict_get "expires_in" data = Some (JInt seconds) ->
        let expiry := (clock (fst s1) (ticks (fst s1)) + timedelta_seconds seconds)%Z in
        is_datetime expiry = true ->
        let t := mkBearerRequestToken access (Some expiry) (Some answer) in
        fst r = Ret t /\
        self_token (snd (snd r)) = Some t /\
        fs (fst (snd r))
        = <[token_file_path s := JsonFile (JObj [("token", access);
                                                 ("expires_in", JStr (isoformat expiry))])]>
            (fs (fst s))).
Proof.
  split.
  - intros members expiry cached Hc Ht Hlt r. subst r.
    rewrite (request_auth_token_cached s members expiry cached Hc Ht Hlt).
    simpl. auto.
  - intros s1 username password Hstale Hc post answer r. subst r post answer.
    destruct (cache_stale_credentials _ _ _ _ Hstale Hc) as [Hc1 Hreq].
    destruct (cache_stale_frame _ _ Hstale) as (Hself & Hfs & Hlog & Hsrv & _).
    rewrite (request_auth_token_stale _ _ Hstale). split.
    + rewrite (request_new_token_sends_once s1 username password _ Hc1).
      rewrite Hreq, Hlog. reflexivity.
    + intros data access seconds Hs Hbody Ha He expiry Hrange t. subst t expiry.
      rewrite <- Hreq, <- Hlog, <- Hsrv in Hs, Hbody.
      rewrite (request_new_token_granted s1 username password _ data access seconds
                 Hc1 Hs Hbody Ha He Hrange).
      cbn [fst snd fs with_fs self_token with_token]. rewrite Hfs, Hreq, Hlog, Hsrv. auto.
Qed.

(** C4. In a state whose cache gives no usable token: a 200 answer that
    lacks the access token or the lifetime makes [request_auth_token] raise
    the ValueError of line 97; a non-200 answer makes it return the marker
    with the empty token, without raising, and no usable token is held then;
    an API call that had to make this request raises the Exception of line
    132 before it sends its own request; and so does the API call that
    comes next, as long as the cache is stale and the token request it
    makes in turn is refused. *)
Theorem authentication_failure_contract s s1 username password :
  cache_stale fromisoformat s s1 ->
  credentials_are s username password ->
  let post := token_request s username password in
  let answer := server (fst s) (net_log (fst s) ++ [post]) in
  let r := request_auth_token isoformat fromisoformat s in
  (forall data,
      status_code answer = 200%Z ->
      response_text answer = Encodes (JObj data) ->
      dict_get "access_token" data = None \/ dict_get "expires_in" data = None ->
      fst r = Raise (ValueError TokenFieldsMissing))
  /\
  (status_code answer <> 200%Z ->
   fst r = Ret (invalid_token answer) /\
   token (invalid_token answer) = JStr "" /\
   no_usable_token (snd r) /\
   (forall path params,
       no_usable_token s ->
       let call := do_api_call isoformat fromisoformat path params s in
       fst call = Raise (Exception NotAuthenticated) /\
       net_log (fst (snd call)) = (net_log (fst s) ++ [post])%list) /\
   (forall s2 path params,
       cache_stale fromisoformat (snd r) s2 ->
       status_code (server (fst s) (net_log (fst s) ++ [post; post])) <> 200%Z ->
       let call := do_api_call isoformat fromisoformat path params (snd r) in
       fst call = Raise (Exception NotAuthenticated) /\
       net_log (fst (snd call)) = (net_log (fst s) ++ [post; post])%list)).
Proof.
  intros Hstale Hc post answer r.
  destruct (cache_stale_credentials _ _ _ _ Hstale Hc) as [Hc1 Hreq].
  destruct (cache_stale_frame _ _ Hstale) as (Hself & Hfs & Hlog & Hsrv & _).
  assert (Hr : r = request_new_token isoformat (token_file_path s) s1)
    by apply (request_auth_token_stale _ _ Hstale).
  split.
  - intros data Hs Hbody Hmiss. subst post answer.
    rewrite <- Hreq, <- Hlog, <- Hsrv in Hs, Hbody.
    rewrite Hr, (request_new_token_incomplete s1 username password _ data Hc1 Hs Hbody Hmiss).
    reflexivity.
  - intros Hs.
    assert (Hnew := request_new_token_failed s1 username password
                      (token_file_path s) Hc1).
    cbv zeta in Hnew. rewrite Hreq, Hlog, Hsrv in Hnew. specialize (Hnew Hs).
    fold post answer in Hnew. rewrite <- Hr, Hself in Hnew.
    split; [rewrite Hnew; reflexivity|].
    split; [reflexivity|].
    split; [rewrite Hnew; reflexivity|].
    split.
    + intros path params Hno call. subst call.
      rewrite (do_api_call_not_authenticated s s1 username password path params
                 Hno Hstale Hc Hs). auto.
    + intros s2 path params Hstale2 Hs2 call. subst call.
      assert (Hc' : credentials_are (snd r) username password).
      { rewrite Hnew. destruct Hc as [rest Hc]. exists rest. simpl. rewrite Hfs. exact Hc. }
      assert (Hno' : no_usable_token (snd r)) by (rewrite Hnew; reflexivity).
      assert (Hpost : token_request (snd r) username password = post)
        by (rewrite Hnew; reflexivity).
      assert (Hlog' : net_log (fst (snd r)) = (net_log (fst s) ++ [post])%list)
        by (rewrite Hnew; reflexivity).
      assert (Hsrv' : server (fst (snd r)) = server (fst s))
        by (rewrite Hnew; simpl; exact Hsrv).
      assert (Hs2' : status_code (server (fst (snd r))
                        (net_log (fst (snd r)) ++ [token_request (snd r) username password]))
                     <> 200%Z).
      { rewrite Hpost, Hlog', Hsrv', <- app_assoc. exact Hs2. }
      rewrite (do_api_call_not_authenticated (snd r) s2 username password path params
                 Hno' Hstale2 Hc' Hs2').
      cbn [fst snd net_log with_net_log]. rewrite Hpost, Hlog', <- app_assoc. auto.
Qed.

(** C7. [reset_auth_token] always returns, and leaves the file system
    without the token cache file, whether there was one or not; run again
    it changes nothing.  After it, whatever the cache held before,
    [request_auth_token] sends the token request (the credentials file
    being another file than the cache). *)
Theorem reset_auth_token_forces_request s :
  let s' := snd (reset_auth_token s) in
  reset_auth_token s = (Ret tt, s') /\
  fs (fst s') = delete (token_file_path s) (fs (fst s)) /\
  reset_auth_token s' = (Ret tt, s') /\
  forall username password,
    credentials_are s username password ->
    path_to_credentials (snd s) <> token_file_path s ->
    net_log (fst (snd (request_auth_token isoformat fromisoformat s')))
    = (net_log (fst s) ++ [token_request s username password])%list.
Proof.
  intros s'. subst s'. rewrite (reset_auth_token_deletes s). cbn [fst snd].
  set (s' := (with_fs _ _, _)).
  assert (Hnone : fs (fst s') !! token_file_path s' = None)
    by (destruct s as [w self]; apply lookup_delete_eq).
  split; [reflexivity|]. split; [reflexivity|]. split.
  - rewrite (reset_auth_token_deletes s').
    destruct s as [w self]. subst s'. unfold token_file_path. cbn [fst snd fs with_fs tempdir].
    rewrite delete_delete_eq. reflexivity.
  - intros username password [rest Hc] Hne.
    assert (Hc' : credentials_are s' username password).
    { exists rest. destruct s as [w self]. subst s'. cbn [fst snd fs with_fs] in *.
      rewrite lookup_delete_ne by (intros E; apply Hne; symmetry; exact E). exact Hc. }
    rewrite (request_auth_token_stale s' s' (stale_absent _ _ Hnone)).
    rewrite (request_new_token_sends_once s' username password _ Hc').
    destruct s as [w self]. reflexivity.
Qed.

(** C9. A token request that is not answered 200 leaves the file system,
    and so the token cache file, as it was, and returns the marker; and
    whatever happens in [request_auth_token], the file system changes only
    if a request was sent and answered 200. *)
Theorem failed_token_request_keeps_cache s :
  (forall s1 username password,
      cache_stale fromisoformat s s1 ->
      credentials_are s username password ->
      let answer := server (fst s) (net_log (fst s) ++ [token_request s username password]) in
      status_code answer <> 200%Z ->
      let r := request_auth_token isoformat fromisoformat s in
      fst r = Ret (invalid_token answer) /\
      fs (fst (snd r)) = fs (fst s))
  /\
  (let s' := snd (request_auth_token isoformat fromisoformat s) in
   fs (fst s') = fs (fst s) \/
   exists post, net_log (fst s') = (net_log (fst s) ++ [post])%list /\
                status_code (server (fst s) (net_log (fst s'))) = 200%Z).
Proof.
  split; [|apply request_auth_token_writes_on_200].
  intros s1 username password Hstale Hc answer Hs r. subst r.
  destruct (cache_stale_credentials _ _ _ _ Hstale Hc) as [Hc1 Hreq].
  destruct (cache_stale_frame _ _ Hstale) as (Hself & Hfs & Hlog & Hsrv & _).
  assert (Hnew := request_new_token_failed s1 username password
                    (token_file_path s) Hc1).
  cbv zeta in Hnew. rewrite Hreq, Hlog, Hsrv in Hnew. specialize (Hnew Hs).
  rewrite (request_auth_token_stale _ _ Hstale), Hnew. split; [reflexivity|exact Hfs].
Qed.

End Authenticator.

(** ** The dictionary cache *)

Lemma names_of_objects rows :
  names_of (JObj <$> rows) = Ret (name_of <$> rows).
Proof.
  induction rows as [|members rest IH]; [reflexivity|].
  rewrite !fmap_cons. cbn [names_of]. rewrite IH. reflexivity.
Qed.

Section DictionaryCache.
Variable isoformat : datetime -> string.
Variable fromisoformat : string -> option parsed_datetime.

(** A cached dictionary is returned and nothing changes. *)
Lemma get_dictionary_cached s path dictionary_name value :
  fs (fst s) !! cache_file_path s dictionary_name = Some (JsonFile value) ->
  get_dictionary isoformat fromisoformat path dictionary_name false s = (Ret value, s).
Proof.
  destruct s as [w self]. unfold cache_file_path. simpl. intros Hf.
  unfold get_dictionary. exec. rewrite Hf.
  rewrite bool_decide_eq_true_2 by eauto. exec. rewrite Hf. reflexivity.
Qed.

(** Otherwise the API is called, and the result of the call decides. *)
Lemma get_dictionary_fetches s path dictionary_name force :
  fetches s dictionary_name force ->
  get_dictionary isoformat fromisoformat path dictionary_name force s
  = bind (do_api_call isoformat fromisoformat path None)
         (dictionary_of_result (cache_file_path s dictionary_name)) s.
Proof.
  destruct s as [w self]. unfold fetches, cache_file_path. simpl. intros Hf.
  unfold get_dictionary. unfold bind at 1. unfold gettempdir, bind at 1, get_world, ret.
  cbn [fst snd]. unfold bind at 1.
  destruct force.
  - reflexivity.
  - destruct Hf as [Hf | Hf]; [discriminate|].
    unfold os_path_exists, bind at 1, get_world, ret. cbn [fst snd]. rewrite Hf.
    rewrite bool_decide_eq_false_2 by (intros [x Hx]; discriminate). reflexivity.
Qed.

Lemma dictionary_of_result_failed path r s :
  status_code (response r) <> 200%Z ->
  dictionary_of_result path r s = (Ret JNull, s).
Proof.
  intros Hs. apply Z.eqb_neq in Hs. unfold dictionary_of_result. rewrite Hs. reflexivity.
Qed.

Lemma dictionary_of_result_not_json path r s :
  status_code (response r) = 200%Z ->
  content r = NotJson ->
  dictionary_of_result path r s = (Ret JNull, s).
Proof.
  intros Hs Hc. unfold dictionary_of_result. rewrite Hs, Hc. reflexivity.
Qed.

Lemma dictionary_of_result_scalar path r s data :
  status_code (response r) = 200%Z ->
  content r = Encodes data ->
  scalar data ->
  dictionary_of_result path r s = (Raise (ValueError UnexpectedJsonStructure), s).
Proof.
  intros Hs Hc Hd. unfold dictionary_of_result. rewrite Hs, Hc.
  destruct data; try contradiction; reflexivity.
Qed.

Lemma dictionary_of_result_object path r s members :
  status_code (response r) = 200%Z ->
  content r = Encodes (JObj members) ->
  let names := default (JArr []) (dict_get "Name" members) in
  dictionary_of_result path r s
  = (Ret names, (with_fs (<[path := JsonFile names]> (fs (fst s))) (fst s), snd s)).
Proof.
  intros Hs Hc. unfold dictionary_of_result. rewrite Hs, Hc. reflexivity.
Qed.

Lemma dictionary_of_result_list path r s rows :
  status_code (response r) = 200%Z ->
  content r = Encodes (JArr (JObj <$> rows)) ->
  let names := JArr (name_of <$> rows) in
  dictionary_of_result path r s
  = (Ret names, (with_fs (<[path := JsonFile names]> (fs (fst s))) (fst s), snd s)).
Proof.
  intros Hs Hc. unfold dictionary_of_result. rewrite Hs, Hc. exec.
  rewrite names_of_objects. reflexivity.
Qed.

(** What is made of a result does not depend on the state, and sends
    nothing. *)
Lemma dictionary_of_result_value path r s s' :
  fst (dictionary_of_result path r s) = fst (dictionary_of_result path r s').
Proof.
  destruct s as [w self], s' as [w' self'].
  unfold dictionary_of_result. split_cases; congruence.
Qed.

Lemma dictionary_of_result_log path r s :
  net_log (fst (snd (dictionary_of_result path r s))) = net_log (fst s).
Proof.
  destruct s as [w self]. unfold dictionary_of_result. split_cases; congruence.
Qed.

(** C6. A dictionary found in the cache is returned by
    [get_dictionary] with [force=False] exactly as it is there, the state
    is unchanged and so no request is sent; in particular after the names
    were written to the cache file of the dictionary.  With [force=True]
    the cache is not read: the method is the API call followed by the
    treatment of its result; and when a usable token is held, the request
    to the API is sent whatever the file system holds, the value returned
    is the same for every file system, and the names the API lists are
    returned and replace the cache entry. *)
Theorem dictionary_cache_round_trip s path dictionary_name :
  (forall value,
      fs (fst s) !! cache_file_path s dictionary_name = Some (JsonFile value) ->
      get_dictionary isoformat fromisoformat path dictionary_name false s = (Ret value, s))
  /\
  (forall names,
      let written := JArr (JStr <$> names) in
      let s1 := with_cached s dictionary_name written in
      json_dump written (cache_file_path s dictionary_name) s = (Ret tt, s1) /\
      get_dictionary isoformat fromisoformat path dictionary_name false s1
      = (Ret written, s1))
  /\
  get_dictionary isoformat fromisoformat path dictionary_name true s
  = bind (do_api_call isoformat fromisoformat path None)
         (dictionary_of_result (cache_file_path s dictionary_name)) s
  /\
  (forall t,
      holds_token s t ->
      let get := api_request s path None t in
      let answer := server (fst s) (net_log (fst s) ++ [get]) in
      let r := get_dictionary isoformat fromisoformat path dictionary_name true s in
      net_log (fst (snd r)) = (net_log (fst s) ++ [get])%list /\
      (forall files,
          let r' := get_dictionary isoformat fromisoformat path dictionary_name true
                      (with_fs files (fst s), snd s) in
          fst r' = fst r /\ net_log (fst (snd r')) = net_log (fst (snd r))) /\
      (forall rows,
          status_code answer = 200%Z ->
          response_text answer = Encodes (JArr (JObj <$> rows)) ->
          fst r = Ret (JArr (name_of <$> rows)) /\
          fs (fst (snd r)) !! cache_file_path s dictionary_name
          = Some (JsonFile (JArr (name_of <$> rows))))).
Proof.
  split; [|split; [|split]].
  - intros value Hf. apply get_dictionary_cached, Hf.
  - intros names written s1. split; [reflexivity|].
    apply get_dictionary_cached. destruct s as [w self]. apply lookup_insert_eq.
  - apply get_dictionary_fetches. left. reflexivity.
  - intros t Ht get answer r.
    assert (Hr : r = dictionary_of_result (cache_file_path s dictionary_name)
                       (api_result answer)
                       (with_net_log (net_log (fst s) ++ [get]) (fst s), snd s)).
    { subst r. rewrite get_dictionary_fetches by (left; reflexivity).
      unfold bind. rewrite (do_api_call_with_token isoformat fromisoformat s t path None Ht).
      reflexivity. }
    split; [|split].
    + rewrite Hr. apply dictionary_of_result_log.
    + intros files r'.
      assert (Hr' : r' = dictionary_of_result (cache_file_path s dictionary_name)
                           (api_result answer)
                           (with_net_log (net_log (fst s) ++ [get])
                              (with_fs files (fst s)), snd s)).
      { subst r'. rewrite get_dictionary_fetches by (left; reflexivity).
        unfold bind.
        rewrite (do_api_call_with_token isoformat fromisoformat
                   (with_fs files (fst s), snd s) t path None Ht).
        destruct s as [w self]. reflexivity. }
      rewrite Hr, Hr'. split.
      * apply dictionary_of_result_value.
      * rewrite !dictionary_of_result_log. reflexivity.
    + intros rows Hs Hbody.
      assert (Hs' : status_code (response (api_result answer)) = 200%Z)
        by (unfold api_result; rewrite Hs; exact Hs).
      assert (Hc' : content (api_result answer) = Encodes (JArr (JObj <$> rows)))
        by (unfold api_result; rewrite Hs; exact Hbody).
      rewrite Hr, (dictionary_of_result_list _ _ _ rows Hs' Hc').
      split; [reflexivity|]. apply lookup_insert_eq.
Qed.

(** C8, as the code has it.  When [get_dictionary] calls the API and the
    call returns: a status other than 200 gives [None], and so does a 200
    whose text is not JSON; a 200 whose JSON is neither a list nor an
    object (a string, a number, a boolean, null) raises the ValueError of
    line 167, and the cache is not written; a single object and a list of
    objects are both taken, whether they expose [Name] or not, and the call
    returns. *)
Theorem get_dictionary_error_contract s s1 r path dictionary_name force :
  fetches s dictionary_name force ->
  do_api_call isoformat fromisoformat path None s = (Ret r, s1) ->
  let result := get_dictionary isoformat fromisoformat path dictionary_name force s in
  (status_code (response r) <> 200%Z -> result = (Ret JNull, s1)) /\
  (status_code (response r) = 200%Z -> content r = NotJson -> result = (Ret JNull, s1)) /\
  (forall data,
      status_code (response r) = 200%Z -> content r = Encodes data -> scalar data ->
      result = (Raise (ValueError UnexpectedJsonStructure), s1)) /\
  (forall members,
      status_code (response r) = 200%Z -> content r = Encodes (JObj members) ->
      fst result = Ret (default (JArr []) (dict_get "Name" members))) /\
  (forall rows,
      status_code (response r) = 200%Z -> content r = Encodes (JArr (JObj <$> rows)) ->
      fst result = Ret (JArr (name_of <$> rows))).
Proof.
  intros Hf Hcall result. subst result.
  rewrite (get_dictionary_fetches _ _ _ _ Hf). unfold bind. rewrite Hcall.
  split; [|split; [|split; [|split]]].
  - apply dictionary_of_result_failed.
  - apply dictionary_of_result_not_json.
  - intros data. apply dictionary_of_result_scalar.
  - intros members Hs Hc. rewrite (dictionary_of_result_object _ _ _ _ Hs Hc). reflexivity.
  - intros rows Hs Hc. rewrite (dictionary_of_result_list _ _ _ _ Hs Hc). reflexivity.
Qed.

(** C10. When [get_dictionary] calls the API and the answer is a 200: a
    single object without a [Name] field gives the empty list, which is
    returned and written to the cache; a list of objects gives the list of
    their [Name] values, with [None] in the place of every object that has
    no [Name], and that list is returned and written to the cache. *)
Theorem get_dictionary_missing_names s s1 r path dictionary_name force :
  fetches s dictionary_name force ->
  do_api_call isoformat fromisoformat path None s = (Ret r, s1) ->
  status_code (response r) = 200%Z ->
  let result := get_dictionary isoformat fromisoformat path dictionary_name force s in
  let cached names :=
    (with_fs (<[cache_file_path s dictionary_name := JsonFile names]> (fs (fst s1))) (fst s1),
     snd s1) in
  (forall members,
      content r = Encodes (JObj members) ->
      dict_get "Name" members = None ->
      result = (Ret (JArr []), cached (JArr []))) /\
  (forall rows,
      content r = Encodes (JArr (JObj <$> rows)) ->
      result = (Ret (JArr (name_of <$> rows)), cached (JArr (name_of <$> rows))) /\
      forall i members,
        rows !! i = Some members ->
        dict_get "Name" members = None ->
        (name_of <$> rows) !! i = Some JNull).
Proof.
  intros Hf Hcall Hs result cached. subst result cached.
  rewrite (get_dictionary_fetches _ _ _ _ Hf). unfold bind. rewrite Hcall.
  split.
  - intros members Hc Hn. rewrite (dictionary_of_result_object _ _ _ _ Hs Hc), Hn.
    reflexivity.
  - intros rows Hc. split.
    + rewrite (dictionary_of_result_list _ _ _ _ Hs Hc). reflexivity.
    + intros i members Hi Hn. rewrite list_lookup_fmap, Hi. simpl.
      unfold name_of. rewrite Hn. reflexivity.
Qed.

End DictionaryCache.

(** ** select_header *)

Lemma first_match {A} (p : A -> bool) (l : list A) :
  match List.filter p l with
  | x :: _ => List.find p l = Some x /\ existsb p l = true
  | [] => List.find p l = None /\ existsb p l = false
  end.
Proof.
  induction l as [|a l IH]; simpl; [auto|].
  destruct (p a); simpl; auto.
Qed.

(** The loop returns the variables of all the descriptions, after those
    it was given, or raises on the first description that is absent. *)
Lemma select_header_loop_spec df descs selected :
  select_header_loop df descs selected
  = match absent_descriptions df descs with
    | [] => Ret (selected ++ omap (header_variable df) descs)%list
    | desc :: _ => Raise (ValueError (ColumnNotFound desc))
    end.
Proof.
  revert selected. induction descs as [|desc rest IH]; intros selected.
  - simpl. rewrite app_nil_r. reflexivity.
  - cbn [select_header_loop absent_descriptions List.filter omap list_omap].
    unfold header_variable at 1.
    pose proof (first_match (fun row => String.eqb (ColumnDesc row) desc) df) as Hm.
    destruct (List.filter _ df) as [|row more].
    + destruct Hm as [_ He]. rewrite He. reflexivity.
    + destruct Hm as [Hf He]. rewrite He, Hf. cbn [negb fmap option_fmap option_map].
      rewrite IH. fold (absent_descriptions df rest).
      destruct (absent_descriptions df rest); [|reflexivity].
      rewrite <- app_assoc. reflexivity.
Qed.

Lemma omap_header_variable df descs :
  absent_descriptions df descs = [] ->
  Forall2 (fun desc variable => header_variable df desc = Some variable)
    descs (omap (header_variable df) descs).
Proof.
  induction descs as [|desc rest IH]; [constructor|].
  cbn [absent_descriptions List.filter omap list_omap]. unfold header_variable at 2.
  pose proof (first_match (fun row => String.eqb (ColumnDesc row) desc) df) as Hm.
  destruct (List.filter _ df) as [|row more].
  - destruct Hm as [_ He]. rewrite He. discriminate.
  - destruct Hm as [Hf He]. rewrite He, Hf. cbn [negb fmap option_fmap option_map].
    intros Habs. constructor; [|exact (IH Habs)].
    unfold header_variable. rewrite Hf. reflexivity.
Qed.

(** C3, as the code has it.  With an empty catalogue [select_header]
    raises the ValueError of line 203.  Otherwise, when every requested
    description has a row, it returns for each description the variable of
    the first row with exactly that description, in the order of the
    request; and when some description has no row, it raises the ValueError
    of line 210, which names the first such description of the request and
    no other, and nothing is returned. *)
Theorem select_header_contract s descs :
  let df := headers_df (snd s) in
  (df = [] -> select_header descs s = (Raise (ValueError HeadersNotLoaded), s)) /\
  (df <> [] ->
   (absent_descriptions df descs = [] ->
    exists variables,
      select_header descs s = (Ret variables, s) /\
      Forall2 (fun desc variable => header_variable df desc = Some variable)
        descs variables) /\
   (forall desc others,
       absent_descriptions df descs = desc :: others ->
       select_header descs s = (Raise (ValueError (ColumnNotFound desc)), s) /\
       named_by (ValueError (ColumnNotFound desc)) = [desc])).
Proof.
  destruct s as [w self]. cbv zeta. cbn [snd].
  unfold select_header. exec. split.
  - intros Hdf. rewrite Hdf. reflexivity.
  - intros Hdf. destruct (headers_df self) as [|row rows] eqn:Hrows; [contradiction|].
    cbn [lift]. rewrite select_header_loop_spec. split.
    + intros Habs. rewrite Habs. eexists. split; [reflexivity|].
      apply omap_header_variable, Habs.
    + intros desc others Habs. rewrite Habs. split; reflexivity.
Qed.

(** ** query_data *)

Lemma records_of_objects rows : records_of (JObj <$> rows) = Some rows.
Proof.
  induction rows as [|members rest IH]; [reflexivity|].
  rewrite !fmap_cons. cbn [records_of]. rewrite IH. reflexivity.
Qed.

Section QueryData.
Variable isoformat : datetime -> string.
Variable fromisoformat : string -> option parsed_datetime.

(** The part the two [query_data] methods share (lines 448-453 and
    275-280). *)
Lemma query_tail s t params :
  holds_token s t ->
  query_contract s t params
    (api_call_result <- do_api_call isoformat fromisoformat "/api/v1/query_data" (Some params) ;;
     if (status_code (response api_call_result) =? 200)%Z then
       data <- json_loads (content api_call_result) ;;
       table <- lift (pd_DataFrame data) ;;
       ret (Some table)
     else ret None).
Proof.
  intros Ht. unfold query_contract. cbv zeta.
  set (get := api_request s "/api/v1/query_data" (Some params) t).
  set (answer := server (fst s) (net_log (fst s) ++ [get])).
  set (s1 := (with_net_log (net_log (fst s) ++ [get]) (fst s), snd s)).
  set (query := bind _ _).
  assert (Hq : query s
               = (if (status_code answer =? 200)%Z then
                    data <- json_loads (response_text answer) ;;
                    table <- lift (pd_DataFrame data) ;;
                    ret (Some table)
                  else ret None) s1).
  { subst query. unfold bind at 1.
    rewrite (do_api_call_with_token isoformat fromisoformat s t _ (Some params) Ht).
    fold get answer s1. unfold api_result.
    destruct (status_code answer =? 200)%Z eqn:Hs; cbn [response content status_code];
      rewrite Hs; reflexivity. }
  rewrite Hq. split; [|split].
  - destruct s as [w self]. subst s1. split_cases; reflexivity.
  - intros Hs. apply Z.eqb_neq in Hs. rewrite Hs. reflexivity.
  - intros rows Hs Hbody Hkeys. rewrite Hs, Hbody. cbn [Z.eqb Pos.eqb]. exec.
    unfold pd_DataFrame. rewrite records_of_objects, Hkeys. reflexivity.
Qed.

(** C5. Holding a usable token, [query_data] of either manager sends one
    request to the query endpoint whose parameters are, for each axis, the
    selected values joined with a comma, then the header variables joined
    with a comma and the flag; a 200 answer whose payload is a list of row
    objects that share their keys and hold no null gives the table of
    these rows, and an answer that is not a 200 gives [None], without an
    exception. *)
Theorem query_data_contract s t
    process_type parameter cell_type stimulated patient_state product daughter
    regulator modifier species tissue_types diseases markers headers wstat_switch :
  holds_token s t ->
  query_contract s t
    [("process_type", String.concat "," process_type);
     ("parameter", String.concat "," parameter);
     ("cell_type", String.concat "," cell_type);
     ("stimulated", String.concat "," stimulated);
     ("patient_state", String.concat "," patient_state);
     ("product", String.concat "," product);
     ("daughter", String.concat "," daughter);
     ("regulator", String.concat "," regulator);
     ("modifier", String.concat "," modifier);
     ("headers", String.concat "," headers);
     ("wstatSwitch", wstat_switch)]
    (FIVEDBManager.query_data isoformat fromisoformat process_type parameter cell_type
       stimulated patient_state product daughter regulator modifier headers wstat_switch)
  /\
  query_contract s t
    [("tissue_types", String.concat "," tissue_types);
     ("diseases", String.concat "," diseases);
     ("species", String.concat "," species);
     ("markers", String.concat "," markers);
     ("headers", String.concat "," headers);
     ("wstatSwitch", wstat_switch)]
    (CytoconDBManager.query_data isoformat fromisoformat species tissue_types diseases
       markers headers wstat_switch).
Proof.
  intros Ht. split; apply (query_tail s t _ Ht).
Qed.

End QueryData.

(** ** select_elements *)

Lemma str_eq_true v j : str_eq v j = true <-> j = JStr v.
Proof.
  destruct j; simpl; try (split; [discriminate | intros H; discriminate H]).
  rewrite String.eqb_eq. split; [intros ->; reflexivity | intros [= ->]; reflexivity].
Qed.

Lemma py_in_list v items : py_in v (JArr items) = true <-> JStr v ∈ items.
Proof.
  simpl. rewrite existsb_exists. split.
  - intros (j & Hin & Heq). apply str_eq_true in Heq. subst j.
    apply list_elem_of_In, Hin.
  - intros Hin. exists (JStr v). split; [apply list_elem_of_In, Hin|].
    apply str_eq_true. reflexivity.
Qed.

Lemma elem_of_strings_of v items : v ∈ strings_of items <-> JStr v ∈ items.
Proof.
  unfold strings_of. rewrite list_elem_of_omap. split.
  - intros (j & Hin & Hj). destruct j; try discriminate. injection Hj as ->. exact Hin.
  - intros Hin. exists (JStr v). split; [exact Hin | reflexivity].
Qed.

Lemma filter_all {A} (p : A -> bool) (l : list A) :
  (forall x, x ∈ l -> p x = true) -> List.filter p l = l.
Proof.
  induction l as [|a l IH]; intros Hall; [reflexivity|].
  simpl. rewrite (Hall a) by left. f_equal. apply IH. intros x Hx. apply Hall. right. exact Hx.
Qed.

(** For a dictionary that is a list of atoms: the values come back as
    they are when all are in the dictionary, and the error names exactly
    the values that are not. *)
Lemma select_elements_all_present values items caption :
  forallb hashable items = true ->
  (forall v, v ∈ values -> JStr v ∈ items) ->
  select_elements values (JArr items) caption = Ret values.
Proof.
  intros Hh Hall. unfold select_elements. cbn [py_set]. rewrite Hh.
  destruct (decide _) as [_ | Hne].
  - f_equal. apply filter_all. intros v Hv. apply py_in_list, Hall, Hv.
  - exfalso. apply Hne. apply set_eq. intros v.
    rewrite elem_of_difference, !elem_of_list_to_set, elem_of_strings_of.
    split; [|intros Hv; exfalso; exact (not_elem_of_empty _ Hv)].
    intros [Hv Hnot]. exfalso. apply Hnot, Hall, Hv.
Qed.

Lemma select_elements_some_missing values items caption :
  forallb hashable items = true ->
  ~ (forall v, v ∈ values -> JStr v ∈ items) ->
  exists missing : gset string,
    select_elements values (JArr items) caption
    = Raise (ValueError (NotFound caption missing)) /\
    forall v, v ∈ missing <-> v ∈ values /\ JStr v ∉ items.
Proof.
  intros Hh Hsome. unfold select_elements. cbn [py_set]. rewrite Hh.
  destruct (decide _) as [He | Hne].
  - exfalso. apply Hsome. intros v Hv.
    destruct (decide (v ∈ strings_of items)) as [Hin | Hnot].
    + apply elem_of_strings_of, Hin.
    + exfalso. apply (not_elem_of_empty (C:=gset string) v). rewrite <- He.
      apply elem_of_difference. rewrite !elem_of_list_to_set. auto.
  - eexists. split; [reflexivity|]. intros v.
    rewrite elem_of_difference, !elem_of_list_to_set, elem_of_strings_of. reflexivity.
Qed.

(** ** Requests sent by the methods that select *)

Lemma string_app_inj_l (a b c : string) : a ++ b = a ++ c -> b = c.
Proof.
  induction a as [|ch a IH]; simpl; [auto|]. intros [= H]. apply IH, H.
Qed.

Lemma quiet_ret base {A} (a : A) : quiet base (ret a).
Proof. intros s Hs. split; [exact Hs|]. exists []. rewrite app_nil_r. auto. Qed.

Lemma quiet_raise base {A} (e : exn) : quiet base (@raise A e).
Proof. intros s Hs. split; [exact Hs|]. exists []. rewrite app_nil_r. auto. Qed.

Lemma quiet_lift base {A} (o : outcome A) : quiet base (lift o).
Proof. intros s Hs. split; [exact Hs|]. exists []. rewrite app_nil_r. auto. Qed.

Lemma quiet_bind base {A B} (m : M A) (k : A -> M B) :
  quiet base m -> (forall a, quiet base (k a)) -> quiet base (bind m k).
Proof.
  intros Hm Hk s Hs. unfold bind. destruct (Hm s Hs) as (Hu & sent & Hlog & Hall).
  destruct (m s) as [[a|e] s']; cbn [fst snd] in *.
  - destruct (Hk a s' Hu) as (Hu' & sent' & Hlog' & Hall').
    split; [exact Hu'|]. exists (sent ++ sent')%list.
    rewrite Hlog', Hlog, app_assoc. split; [reflexivity|]. apply Forall_app; auto.
  - split; [exact Hu|]. exists sent. auto.
Qed.

(** [self] is known to be the manager of [base] in what follows its
    reading. *)
Lemma quiet_bind_get_self base {B} (k : DBManagerBase -> M B) :
  (forall self, url self = base -> quiet base (k self)) -> quiet base (bind get_self k).
Proof. intros Hk [w self] Hs. exact (Hk self Hs (w, self) Hs). Qed.

Lemma quiet_try base {A} (body handler : M A) :
  quiet base body -> quiet base handler -> quiet base (try_except_JSONDecodeError body handler).
Proof.
  intros Hb Hh s Hs. unfold try_except_JSONDecodeError.
  destruct (Hb s Hs) as (Hu & sent & Hlog & Hall).
  destruct (body s) as [[a|e] s']; cbn [fst snd] in *; [split; eauto|].
  destruct e; try solve [split; eauto].
  destruct (Hh s' Hu) as (Hu' & sent' & Hlog' & Hall').
  split; [exact Hu'|]. exists (sent ++ sent')%list.
  rewrite Hlog', Hlog, app_assoc. split; [reflexivity|]. apply Forall_app; auto.
Qed.

(** A step that leaves the log and the address alone. *)
Lemma quiet_silent base {A} (m : M A) :
  (forall s, net_log (fst (snd (m s))) = net_log (fst s) /\
             url (snd (snd (m s))) = url (snd s)) ->
  quiet base m.
Proof.
  intros Hm s Hs. destruct (Hm s) as [Hlog Hu]. split; [congruence|].
  exists []. rewrite app_nil_r. auto.
Qed.

Lemma quiet_send base r : ~ query_call base r -> quiet base (send r).
Proof.
  intros Hr [w self] Hs. unfold send. exec. split; [exact Hs|].
  exists [r]. auto.
Qed.

Create HintDb quiet.

(** A library call or a method that neither sends nor touches the
    address of the database. *)
Ltac silent :=
  apply quiet_silent; intros [? ?]; split_cases; split; reflexivity.

(** One step through the body of a method. *)
Ltac quiet_step :=
  cbv beta;
  lazymatch goal with
  | |- quiet _ (bind get_self _) => apply quiet_bind_get_self; intros ? ?
  | |- quiet _ (bind _ _) => apply quiet_bind; [|intros ?]
  | |- quiet _ (try_except_JSONDecodeError _ _) => apply quiet_try
  | |- quiet _ (requests_post _ _) => apply quiet_send; exact (fun H => H)
  | |- quiet _ (match ?x with _ => _ end) => destruct x
  | |- quiet _ _ => first [ assumption | solve [eauto with quiet] | silent ]
  end.

Section SelectRequests.
Variable isoformat : datetime -> string.
Variable fromisoformat : string -> option parsed_datetime.
Variable base : string.

Lemma quiet_request_auth_token : quiet base (request_auth_token isoformat fromisoformat).
Proof.
  unfold request_auth_token, check_token_cache, request_new_token.
  repeat quiet_step.
Qed.
#[local] Hint Resolve quiet_request_auth_token : quiet.

Lemma quiet_do_api_call path params :
  path <> "/api/v1/query_data" ->
  quiet base (do_api_call isoformat fromisoformat path params).
Proof.
  intros Hpath. unfold do_api_call. repeat quiet_step.
  apply quiet_send. unfold query_call. subst base. intros E.
  apply Hpath, (string_app_inj_l _ _ _ E).
Qed.

Lemma quiet_get_dictionary path dictionary_name force :
  path <> "/api/v1/query_data" ->
  quiet base (get_dictionary isoformat fromisoformat path dictionary_name force).
Proof.
  intros Hpath. pose proof (quiet_do_api_call path None Hpath).
  unfold get_dictionary, dictionary_of_result. repeat quiet_step.
Qed.

Lemma quiet_load_dictionaries a force :
  quiet base (load_dictionaries_of isoformat fromisoformat a force).
Proof.
  assert (Hd : forall path name, path <> "/api/v1/query_data" ->
                 quiet base (get_dictionary isoformat fromisoformat path name force))
    by (intros; apply quiet_get_dictionary; assumption).
  destruct a; cbn [load_dictionaries_of];
    unfold FIVEDBManager.load_dictionaries, CytoconDBManager.load_dictionaries,
      FIVEDBManager.get_process_types, FIVEDBManager.get_parameters,
      FIVEDBManager.get_cell_types, FIVEDBManager.get_stimulated,
      FIVEDBManager.get_patient_states, FIVEDBManager.get_products,
      FIVEDBManager.get_daughter_cells, FIVEDBManager.get_regulators,
      FIVEDBManager.get_modifiers;
    repeat first [ apply Hd; discriminate | quiet_step ].
Qed.

Lemma quiet_select load attribute caption values :
  quiet base (load false) ->
  quiet base (select load attribute caption values).
Proof.
  intros Hload. unfold select, check_attribute, check_dictionary. repeat quiet_step.
Qed.

End SelectRequests.

(** ** The select methods *)

Section Selection.
Variable isoformat : datetime -> string.
Variable fromisoformat : string -> option parsed_datetime.

Lemma select_axis_body a :
  select_axis isoformat fromisoformat a
  = select (load_dictionaries_of isoformat fromisoformat a) (attribute_of a) (caption_of a).
Proof. destruct a; reflexivity. Qed.

(** Once the check is through, the selection is [select_elements] on the
    dictionary the attribute holds then. *)
Lemma select_after_check load attribute caption values s s1 dictionary :
  check_attribute load attribute caption s = (Ret tt, s1) ->
  attributes (snd s1) !! attribute = Some dictionary ->
  select load attribute caption values s
  = (select_elements values dictionary caption, s1).
Proof.
  intros Hcheck Hd. unfold select. unfold bind at 1. rewrite Hcheck.
  destruct s1 as [w1 self1]. exec. cbn [snd] in Hd. rewrite Hd. reflexivity.
Qed.

(** A dictionary that is loaded is not loaded again. *)
Lemma check_attribute_loaded load attribute caption s dictionary :
  attributes (snd s) !! attribute = Some dictionary ->
  truthy dictionary = true ->
  check_attribute load attribute caption s = (Ret tt, s).
Proof.
  destruct s as [w self]. cbn [snd]. intros Hd Ht.
  unfold check_attribute. exec. rewrite Hd. exec. rewrite Ht. reflexivity.
Qed.

(** C1. On any axis of either manager, once the check of the dictionary
    is through and the attribute holds a list of atoms: the selection
    returns the values as they were given, in their order, when each of them
    is in the list; otherwise it raises the ValueError of line 39 with the
    caption of the axis and exactly the values that are not in the list.
    The requests sent on the way, if the dictionaries had to be loaded, are
    none of them to the query endpoint; and when the dictionary was already
    loaded nothing is sent and nothing changes. *)
Theorem select_validates_against_dictionary a values s s1 items :
  check_attribute (load_dictionaries_of isoformat fromisoformat a)
    (attribute_of a) (caption_of a) s = (Ret tt, s1) ->
  attributes (snd s1) !! attribute_of a = Some (JArr items) ->
  forallb hashable items = true ->
  let r := select_axis isoformat fromisoformat a values s in
  ((forall v, v ∈ values -> JStr v ∈ items) -> r = (Ret values, s1)) /\
  (~ (forall v, v ∈ values -> JStr v ∈ items) ->
   exists missing : gset string,
     r = (Raise (ValueError (NotFound (caption_of a) missing)), s1) /\
     forall v, v ∈ missing <-> v ∈ values /\ JStr v ∉ items) /\
  (exists sent,
      net_log (fst (snd r)) = (net_log (fst s) ++ sent)%list /\
      Forall (fun q => ~ query_call (url (snd s)) q) sent) /\
  (forall dictionary,
      attributes (snd s) !! attribute_of a = Some dictionary ->
      truthy dictionary = true ->
      s1 = s).
Proof.
  intros Hcheck Hd Hh r. subst r. rewrite select_axis_body.
  split; [|split; [|split]].
  - intros Hall. rewrite (select_after_check _ _ _ values _ _ _ Hcheck Hd).
    rewrite (select_elements_all_present _ _ _ Hh Hall). reflexivity.
  - intros Hsome. rewrite (select_after_check _ _ _ values _ _ _ Hcheck Hd).
    destruct (select_elements_some_missing values items (caption_of a) Hh Hsome)
      as (missing & Hr & Hm).
    exists missing. rewrite Hr. auto.
  - apply (quiet_select (url (snd s))); [|reflexivity].
    apply quiet_load_dictionaries.
  - intros dictionary Hdict Ht.
    rewrite (check_attribute_loaded _ _ _ _ _ Hdict Ht) in Hcheck.
    injection Hcheck as <-. reflexivity.
Qed.

End Selection.

(** * The properties at work *)

(** The example of the specification for [select_elements]. *)
Example select_elements_names_the_missing :
  select_elements ["Migration"; "Invasion"]
    (JArr [JStr "Migration"; JStr "Proliferation"]) "process_types"
  = Raise (ValueError (NotFound "process_types" {["Invasion"]})).
Proof. vm_compute. reflexivity. Qed.

(** An empty dictionary is loaded before the selection: one token request
    and the nine dictionary requests of the manager, none of them a query. *)
Example select_loads_empty_dictionary :
  let s := no_cache_state (granting_server (ok (JArr [JObj [("Name", JStr "Migration")]]))) in
  let r := select_axis demo_isoformat demo_fromisoformat ProcessTypes ["Migration"] s in
  fst r = Ret ["Migration"] /\
  length (net_log (fst (snd r))) = 10 /\
  attributes (snd (snd r)) !! "modifiers" = Some (JArr [JStr "Migration"]).
Proof. vm_compute. repeat split; reflexivity. Qed.

(** When the API gives no dictionary, the attribute holds [None] after the
    load and the selection fails on it, even for no value at all. *)
Example select_fails_without_dictionary :
  fst (select_axis demo_isoformat demo_fromisoformat CellTypes [] (loaded_state not_found))
  = Raise TypeError.
Proof. vm_compute. reflexivity. Qed.

(** The parameters of the end-to-end scenario of the specification. *)
Example query_params_of_the_scenario :
  FIVEDBManager.query_params ["Migration"] ["Emax"] [] [] [] [] [] [] []
    ["param"; "param_val"] "false"
  = [("process_type", "Migration"); ("parameter", "Emax"); ("cell_type", "");
     ("stimulated", ""); ("patient_state", ""); ("product", ""); ("daughter", "");
     ("regulator", ""); ("modifier", ""); ("headers", "param,param_val");
     ("wstatSwitch", "false")].
Proof. reflexivity. Qed.

(** C1 at work: the process types are loaded, and "Migration" is one. *)
Lemma select_validates_against_dictionary_witness :
  let s := demo_state demo_credentials refusing_server loaded_manager in
  let items := [JStr "Migration"; JStr "Proliferation"] in
  check_attribute (load_dictionaries_of demo_isoformat demo_fromisoformat ProcessTypes)
    (attribute_of ProcessTypes) (caption_of ProcessTypes) s = (Ret tt, s) /\
  attributes (snd s) !! attribute_of ProcessTypes = Some (JArr items) /\
  forallb hashable items = true /\
  select_axis demo_isoformat demo_fromisoformat ProcessTypes ["Migration"] s
  = (Ret ["Migration"], s).
Proof.
  cbv zeta.
  assert (H1 : check_attribute
                 (load_dictionaries_of demo_isoformat demo_fromisoformat ProcessTypes)
                 (attribute_of ProcessTypes) (caption_of ProcessTypes)
                 (demo_state demo_credentials refusing_server loaded_manager)
               = (Ret tt, demo_state demo_credentials refusing_server loaded_manager))
    by (vm_compute; reflexivity).
  assert (H2 : attributes (snd (demo_state demo_credentials refusing_server loaded_manager))
               !! attribute_of ProcessTypes
               = Some (JArr [JStr "Migration"; JStr "Proliferation"]))
    by (vm_compute; reflexivity).
  assert (H3 : forallb hashable [JStr "Migration"; JStr "Proliferation"] = true)
    by reflexivity.
  split; [exact H1|]. split; [exact H2|]. split; [exact H3|].
  apply (select_validates_against_dictionary demo_isoformat demo_fromisoformat
           ProcessTypes ["Migration"] _ _ _ H1 H2 H3).
  intros v Hv. apply list_elem_of_singleton in Hv. subst v. left.
Defined.

Lemma stale_cache_state_is_stale answers :
  cache_stale demo_fromisoformat (stale_cache_state answers)
    (after_reading (stale_cache_state answers)).
Proof.
  apply (stale_expired demo_fromisoformat (stale_cache_state answers)
           [("token", JStr "old"); ("expires_in", JStr (demo_isoformat 400000000))]
           400000000%Z).
  - exists (demo_isoformat 400000000). repeat split; vm_compute; reflexivity.
  - vm_compute. discriminate.
Qed.

Lemma fresh_cache_state_is_fresh answers :
  cached_expiry demo_fromisoformat (fresh_cache_state answers)
    [("token", JStr "old"); ("expires_in", JStr (demo_isoformat 900000000))]
    900000000%Z.
Proof. exists (demo_isoformat 900000000). repeat split; vm_compute; reflexivity. Qed.

Lemma no_cache_state_is_stale answers :
  cache_stale demo_fromisoformat (no_cache_state answers) (no_cache_state answers).
Proof. apply stale_absent. vm_compute. reflexivity. Qed.

Lemma stale_cache_state_credentials answers :
  credentials_are (stale_cache_state answers) "alice" "secret".
Proof. exists []. vm_compute. reflexivity. Qed.

Lemma fresh_cache_state_credentials answers :
  credentials_are (fresh_cache_state answers) "alice" "secret".
Proof. exists []. vm_compute. reflexivity. Qed.

Lemma no_cache_state_credentials answers :
  credentials_are (no_cache_state answers) "alice" "secret".
Proof. exists []. vm_compute. reflexivity. Qed.

(** C2 at work: an entry that expires at 900 s is used at 500 s; one that
    expired at 400 s is replaced by the token the server grants for 3600 s
    at 501 s, the second reading of the clock. *)
Lemma request_auth_token_cache_policy_witness :
  let fresh := fresh_cache_state refusing_server in
  let stale := stale_cache_state (granting_server not_found) in
  let r := request_auth_token demo_isoformat demo_fromisoformat stale in
  (fst (request_auth_token demo_isoformat demo_fromisoformat fresh)
   = Ret (mkBearerRequestToken (JStr "old") (Some 900000000%Z) None) /\
   net_log (fst (snd (request_auth_token demo_isoformat demo_fromisoformat fresh))) = []) /\
  net_log (fst (snd r)) = [token_request stale "alice" "secret"] /\
  fst r = Ret (mkBearerRequestToken (JStr "abc") (Some 4101000000%Z) (Some demo_grant)) /\
  fs (fst (snd r)) !! token_file_path stale
  = Some (JsonFile (JObj [("token", JStr "abc");
                          ("expires_in", JStr (demo_isoformat 4101000000))])).
Proof.
  cbv zeta. split.
  - destruct (request_auth_token_cache_policy demo_isoformat demo_fromisoformat
                (fresh_cache_state refusing_server)) as [Hfresh _].
    destruct (Hfresh _ _ (JStr "old") (fresh_cache_state_is_fresh refusing_server))
      as (Hr & Hlog & _).
    + reflexivity.
    + vm_compute. reflexivity.
    + split; [exact Hr | exact Hlog].
  - destruct (request_auth_token_cache_policy demo_isoformat demo_fromisoformat
                (stale_cache_state (granting_server not_found))) as [_ Hstale].
    destruct (Hstale _ "alice" "secret"
                (stale_cache_state_is_stale (granting_server not_found))
                (stale_cache_state_credentials (granting_server not_found)))
      as [Hlog Hgranted].
    split; [exact Hlog|].
    destruct (Hgranted [("access_token", JStr "abc"); ("expires_in", JInt 3600)]
                (JStr "abc") 3600%Z eq_refl eq_refl eq_refl eq_refl eq_refl)
      as (Hr & _ & Hfs).
    split; [exact Hr|]. rewrite Hfs. apply lookup_insert_eq.
Defined.

(** C4 at work: no cache entry and a server that refuses. *)
Lemma authentication_failure_contract_witness :
  let s := no_cache_state refusing_server in
  cache_stale demo_fromisoformat s s /\
  credentials_are s "alice" "secret" /\
  fst (request_auth_token demo_isoformat demo_fromisoformat s)
  = Ret (invalid_token (mkResponse 401 NotJson)) /\
  fst (do_api_call demo_isoformat demo_fromisoformat "/api/v1/products" None s)
  = Raise (Exception NotAuthenticated).
Proof.
  cbv zeta.
  pose proof (no_cache_state_is_stale refusing_server) as H1.
  pose proof (no_cache_state_credentials refusing_server) as H2.
  split; [exact H1|]. split; [exact H2|].
  destruct (authentication_failure_contract demo_isoformat demo_fromisoformat
              _ _ "alice" "secret" H1 H2) as [_ Hrefused].
  destruct Hrefused as (Hr & _ & _ & Hcall & _); [vm_compute; discriminate|].
  split; [exact Hr|]. apply (Hcall "/api/v1/products" None). exact I.
Defined.

(** C7 at work: the cache holds a token that has not expired; after the
    reset the token is requested all the same. *)
Lemma reset_auth_token_forces_request_witness :
  let s := fresh_cache_state (granting_server not_found) in
  let s' := snd (reset_auth_token s) in
  fs (fst s') !! token_file_path s = None /\
  net_log (fst (snd (request_auth_token demo_isoformat demo_fromisoformat s')))
  = [token_request s "alice" "secret"].
Proof.
  cbv zeta.
  destruct (reset_auth_token_forces_request demo_isoformat demo_fromisoformat
              (fresh_cache_state (granting_server not_found)))
    as (_ & Hfs & _ & Hrequest).
  split.
  - rewrite Hfs. apply lookup_delete_eq.
  - apply (Hrequest "alice" "secret").
    + apply fresh_cache_state_credentials.
    + vm_compute. discriminate.
Defined.

(** C9 at work: an expired entry and a server that refuses. *)
Lemma failed_token_request_keeps_cache_witness :
  let s := stale_cache_state refusing_server in
  let r := request_auth_token demo_isoformat demo_fromisoformat s in
  fst r = Ret (invalid_token (mkResponse 401 NotJson)) /\
  fs (fst (snd r)) = demo_token_cache 400000000.
Proof.
  cbv zeta.
  destruct (failed_token_request_keeps_cache demo_isoformat demo_fromisoformat
              (stale_cache_state refusing_server)) as [Hrefused _].
  apply (Hrefused _ "alice" "secret" (stale_cache_state_is_stale refusing_server)).
  - apply stale_cache_state_credentials.
  - vm_compute. discriminate.
Defined.

Lemma loaded_state_holds_token get_answer :
  holds_token (loaded_state get_answer) demo_token.
Proof. split; reflexivity. Qed.

Lemma loaded_state_call get_answer path :
  do_api_call demo_isoformat demo_fromisoformat path None (loaded_state get_answer)
  = (Ret (api_result get_answer), loaded_state_after get_answer path None).
Proof.
  rewrite (do_api_call_with_token _ _ _ demo_token path None
             (loaded_state_holds_token get_answer)).
  reflexivity.
Qed.

(** The example of the specification for [select_header]. *)
Example select_header_of_parameter_value :
  fst (select_header ["Parameter value"] (loaded_state not_found)) = Ret ["param_val"].
Proof. reflexivity. Qed.

(** C3 at work: both descriptions are in the catalogue. *)
Lemma select_header_contract_witness :
  let s := loaded_state not_found in
  headers_df (snd s) <> [] /\
  absent_descriptions (headers_df (snd s)) ["Parameter value"; "Parameter"] = [] /\
  exists variables,
    select_header ["Parameter value"; "Parameter"] s = (Ret variables, s) /\
    Forall2 (fun desc variable => header_variable (headers_df (snd s)) desc = Some variable)
      ["Parameter value"; "Parameter"] variables.
Proof.
  cbv zeta.
  assert (H1 : headers_df (snd (loaded_state not_found)) <> []) by discriminate.
  assert (H2 : absent_descriptions (headers_df (snd (loaded_state not_found)))
                 ["Parameter value"; "Parameter"] = []) by reflexivity.
  split; [exact H1|]. split; [exact H2|].
  destruct (select_header_contract (loaded_state not_found)
              ["Parameter value"; "Parameter"]) as [_ Hloaded].
  destruct (Hloaded H1) as [Hall _]. exact (Hall H2).
Defined.

(** C3 as the claim has it fails: two descriptions are absent from the
    catalogue and the error names the first one only. *)
Lemma select_header_names_first_absent_only :
  let s := loaded_state not_found in
  select_header ["Dose"; "Parameter"; "Route"] s
  = (Raise (ValueError (ColumnNotFound "Dose")), s) /\
  absent_descriptions (headers_df (snd s)) ["Dose"; "Parameter"; "Route"]
  = ["Dose"; "Route"] /\
  named_by (ValueError (ColumnNotFound "Dose")) <> ["Dose"; "Route"].
Proof. cbv zeta. split; [reflexivity|]. split; [reflexivity|]. discriminate. Qed.

(** C5 at work: the scenario of the specification, and a query of the
    other database that the server does not find. *)
Lemma query_data_contract_witness :
  let s := loaded_state (ok (JArr (JObj <$> demo_rows))) in
  holds_token s demo_token /\
  FIVEDBManager.query_data demo_isoformat demo_fromisoformat
    ["Migration"] ["Emax"] [] [] [] [] [] [] [] ["param"; "param_val"] "false" s
  = (Ret (Some demo_rows),
     loaded_state_after (ok (JArr (JObj <$> demo_rows))) "/api/v1/query_data"
       (Some [("process_type", "Migration"); ("parameter", "Emax"); ("cell_type", "");
              ("stimulated", ""); ("patient_state", ""); ("product", "");
              ("daughter", ""); ("regulator", ""); ("modifier", "");
              ("headers", "param,param_val"); ("wstatSwitch", "false")])) /\
  holds_token (cytocon_state not_found) demo_token /\
  fst (CytoconDBManager.query_data demo_isoformat demo_fromisoformat
         ["human"] ["blood"] ["asthma"; "COPD"] ["IL-6"] ["param"] "false"
         (cytocon_state not_found))
  = Ret None /\
  net_log (fst (snd (CytoconDBManager.query_data demo_isoformat demo_fromisoformat
                       ["human"] ["blood"] ["asthma"; "COPD"] ["IL-6"] ["param"] "false"
                       (cytocon_state not_found))))
  = [GET "https://cytocon.example/api/v1/query_data"
       (Some [("tissue_types", "blood"); ("diseases", "asthma,COPD");
              ("species", "human"); ("markers", "IL-6"); ("headers", "param");
              ("wstatSwitch", "false")])
       (JStr "abc")].
Proof.
  cbv zeta.
  pose proof (loaded_state_holds_token (ok (JArr (JObj <$> demo_rows)))) as H1.
  assert (H2 : holds_token (cytocon_state not_found) demo_token) by (split; reflexivity).
  split; [exact H1|]. split; [|split; [exact H2|]].
  - destruct (query_data_contract demo_isoformat demo_fromisoformat _ demo_token
                ["Migration"] ["Emax"] [] [] [] [] [] [] [] [] [] [] []
                ["param"; "param_val"] "false" H1) as [(_ & _ & Hrows) _].
    apply (Hrows demo_rows); reflexivity.
  - destruct (query_data_contract demo_isoformat demo_fromisoformat _ demo_token
                [] [] [] [] [] [] [] [] [] ["human"] ["blood"] ["asthma"; "COPD"] ["IL-6"]
                ["param"] "false" H2)
      as [_ (Hlog & Hfailed & _)].
    split; [|exact Hlog].
    rewrite Hfailed; [reflexivity|]. vm_compute. discriminate.
Defined.

(** C6 at work: the names A, B, C are written and read back; a forced
    read asks the API and replaces them. *)
Lemma dictionary_cache_round_trip_witness :
  let s := loaded_state (ok (JArr [JObj [("Name", JStr "D")]])) in
  let written := JArr [JStr "A"; JStr "B"; JStr "C"] in
  let s1 := with_cached s "letters" written in
  get_dictionary demo_isoformat demo_fromisoformat "/api/v1/letters" "letters" false s1
  = (Ret written, s1) /\
  fst (get_dictionary demo_isoformat demo_fromisoformat "/api/v1/letters" "letters" true s1)
  = Ret (JArr [JStr "D"]) /\
  net_log (fst (snd (get_dictionary demo_isoformat demo_fromisoformat "/api/v1/letters"
                       "letters" true s1)))
  = [GET "https://fivedb.example/api/v1/letters" None (JStr "abc")].
Proof.
  cbv zeta. split.
  - destruct (dictionary_cache_round_trip demo_isoformat demo_fromisoformat
                (loaded_state (ok (JArr [JObj [("Name", JStr "D")]])))
                "/api/v1/letters" "letters") as (_ & Hwritten & _ & _).
    apply (Hwritten ["A"; "B"; "C"]).
  - destruct (dictionary_cache_round_trip demo_isoformat demo_fromisoformat
                (with_cached (loaded_state (ok (JArr [JObj [("Name", JStr "D")]])))
                   "letters" (JArr [JStr "A"; JStr "B"; JStr "C"]))
                "/api/v1/letters" "letters") as (_ & _ & _ & Hforce).
    destruct (Hforce demo_token ltac:(split; reflexivity)) as (Hlog & _ & Hrows).
    split; [|exact Hlog].
    apply (Hrows [[("Name", JStr "D")]]); reflexivity.
Defined.

(** C8 at work: the API answers 200 with a JSON string. *)
Lemma get_dictionary_error_contract_witness :
  let s := loaded_state (ok (JStr "maintenance")) in
  let s1 := loaded_state_after (ok (JStr "maintenance")) "/api/v1/products" None in
  fetches s "products" true /\
  do_api_call demo_isoformat demo_fromisoformat "/api/v1/products" None s
  = (Ret (api_result (ok (JStr "maintenance"))), s1) /\
  get_dictionary demo_isoformat demo_fromisoformat "/api/v1/products" "products" true s
  = (Raise (ValueError UnexpectedJsonStructure), s1).
Proof.
  cbv zeta.
  assert (H1 : fetches (loaded_state (ok (JStr "maintenance"))) "products" true)
    by (left; reflexivity).
  pose proof (loaded_state_call (ok (JStr "maintenance")) "/api/v1/products") as H2.
  split; [exact H1|]. split; [exact H2|].
  destruct (get_dictionary_error_contract demo_isoformat demo_fromisoformat
              _ _ _ "/api/v1/products" "products" true H1 H2) as (_ & _ & Hscalar & _).
  apply (Hscalar (JStr "maintenance")); [reflexivity | reflexivity | exact I].
Defined.

(** C8 as the claim has it fails: an object without a [Name] field, and
    a list of such objects, are neither of the two shapes, and the call
    returns. *)
Lemma get_dictionary_takes_objects_without_name :
  accepted_shape (JObj [("Title", JStr "x")]) = false /\
  fst (get_dictionary demo_isoformat demo_fromisoformat "/api/v1/products" "products" true
         (loaded_state (ok (JObj [("Title", JStr "x")]))))
  = Ret (JArr []) /\
  accepted_shape (JArr [JObj [("Title", JStr "x")]]) = false /\
  fst (get_dictionary demo_isoformat demo_fromisoformat "/api/v1/products" "products" true
         (loaded_state (ok (JArr [JObj [("Title", JStr "x")]]))))
  = Ret (JArr [JNull]).
Proof. repeat split; vm_compute; reflexivity. Qed.

(** C10 at work: an object without a name, and a list with such an
    object in the second place. *)
Lemma get_dictionary_missing_names_witness :
  let object := JObj [("Title", JStr "x")] in
  let rows := [[("Name", JStr "Migration")]; [("Title", JStr "x")]] in
  fetches (loaded_state (ok object)) "products" true /\
  do_api_call demo_isoformat demo_fromisoformat "/api/v1/products" None
    (loaded_state (ok object))
  = (Ret (api_result (ok object)), loaded_state_after (ok object) "/api/v1/products" None) /\
  status_code (response (api_result (ok object))) = 200%Z /\
  fst (get_dictionary demo_isoformat demo_fromisoformat "/api/v1/products" "products" true
         (loaded_state (ok object)))
  = Ret (JArr []) /\
  fst (get_dictionary demo_isoformat demo_fromisoformat "/api/v1/products" "products" true
         (loaded_state (ok (JArr (JObj <$> rows)))))
  = Ret (JArr [JStr "Migration"; JNull]).
Proof.
  cbv zeta.
  assert (H1 : forall answer, fetches (loaded_state answer) "products" true)
    by (intros; left; reflexivity).
  pose proof (fun answer => loaded_state_call answer "/api/v1/products") as H2.
  split; [apply H1|]. split; [apply H2|]. split; [reflexivity|]. split.
  - destruct (get_dictionary_missing_names demo_isoformat demo_fromisoformat
                _ _ _ "/api/v1/products" "products" true (H1 _)
                (H2 (ok (JObj [("Title", JStr "x")]))) eq_refl) as [Hobject _].
    rewrite (Hobject [("Title", JStr "x")]); reflexivity.
  - destruct (get_dictionary_missing_names demo_isoformat demo_fromisoformat
                _ _ _ "/api/v1/products" "products" true (H1 _)
                (H2 (ok (JArr (JObj <$> [[("Name", JStr "Migration")];
                                         [("Title", JStr "x")]])))) eq_refl)
      as [_ Hlist].
    destruct (Hlist [[("Name", JStr "Migration")]; [("Title", JStr "x")]] eq_refl)
      as [Hr _].
    rewrite Hr. reflexivity.
Defined.

(** * Further properties of the code *)

(** ** The token cache and the API caller *)

Section TokenCache.
Variable isoformat : datetime -> string.
Variable fromisoformat : string -> option parsed_datetime.

(** What [fromisoformat] returns is a [datetime]: a naive date it reads
    is one of the dates. *)
Hypothesis fromisoformat_is_datetime :
  forall stored t, fromisoformat stored = Some (Naive t) -> is_datetime t = true.

(** X1. A token cache file in which no expiry can be read makes
    [request_auth_token] raise, with the state as it was: the credentials
    are not read and nothing is sent.  The file is not JSON, or not an
    object, or has no [expires_in], or one that is no ISO date. *)
Theorem unreadable_token_cache_raises s f :
  fs (fst s) !! token_file_path s = Some f ->
  stored_expiry fromisoformat f = None ->
  request_auth_token isoformat fromisoformat s = (Raise (cache_error f), s).
Proof.
  destruct s as [w self]. unfold token_file_path. cbn [fst snd]. intros Hf Hnone.
  unfold request_auth_token, check_token_cache. exec. rewrite Hf.
  rewrite bool_decide_eq_true_2 by eauto. exec. rewrite Hf.
  destruct f as [j|fields]; [|reflexivity].
  destruct j; try reflexivity.
  cbn [stored_expiry cache_error] in *. exec.
  destruct (dict_get "expires_in" members) as [v|]; [|reflexivity].
  destruct v; try reflexivity. exec. rewrite Hnone. reflexivity.
Qed.

(** X2. When the cache gives no token, the credentials are read before
    anything is sent: a missing file raises FileNotFoundError and a first
    line of fewer than two fields raises IndexError, and in both cases the
    log and the files are as before. *)
Theorem credentials_errors_precede_request s s1 :
  cache_stale fromisoformat s s1 ->
  let r := request_auth_token isoformat fromisoformat s in
  (fs (fst s) !! path_to_credentials (snd s) = None ->
   r = (Raise (FileNotFoundError (path_to_credentials (snd s))), s1)) /\
  (forall fields,
      fs (fst s) !! path_to_credentials (snd s) = Some (TextFile fields) ->
      length fields < 2 ->
      r = (Raise IndexError, s1)) /\
  net_log (fst s1) = net_log (fst s) /\ fs (fst s1) = fs (fst s).
Proof.
  intros Hstale r. subst r. rewrite (request_auth_token_stale _ _ _ _ Hstale).
  destruct (cache_stale_frame _ _ _ Hstale) as (Hself & Hfs & Hlog & _).
  destruct s1 as [w1 self1]. cbn [fst snd] in *. subst self1.
  split; [|split; [|split; assumption]].
  - intros Hc. unfold request_new_token. exec. rewrite Hfs, Hc. reflexivity.
  - intros fields Hc Hlen. unfold request_new_token. exec. rewrite Hfs, Hc. exec.
    destruct fields as [|a [|b rest]]; [reflexivity | reflexivity | simpl in Hlen; lia].
Qed.

(** X3. A token that was granted and cached is read back from the cache, as
    long as the clock has not reached its expiry.  The expiry is a date:
    [fromisoformat] reads it back, and reads nothing but dates. *)
Theorem granted_token_is_read_back s s1 username password data access seconds :
  cache_stale fromisoformat s s1 ->
  credentials_are s username password ->
  let post := token_request s username password in
  let answer := server (fst s) (net_log (fst s) ++ [post]) in
  status_code answer = 200%Z ->
  response_text answer = Encodes (JObj data) ->
  dict_get "access_token" data = Some access ->
  dict_get "expires_in" data = Some (JInt seconds) ->
  let expiry := (clock (fst s1) (ticks (fst s1)) + timedelta_seconds seconds)%Z in
  fromisoformat (isoformat expiry) = Some (Naive expiry) ->
  (expiry > clock (fst s1) (S (ticks (fst s1))))%Z ->
  let s' := snd (request_auth_token isoformat fromisoformat s) in
  let again := request_auth_token isoformat fromisoformat s' in
  fst again = Ret (mkBearerRequestToken access (Some expiry) None) /\
  net_log (fst (snd again)) = (net_log (fst s) ++ [post])%list /\
  fs (fst (snd again)) = fs (fst s').
Proof.
  intros Hstale Hc post answer Hs Hbody Ha He expiry Hcodec Hlater s' again.
  destruct (cache_stale_credentials _ _ _ _ _ Hstale Hc) as [Hc1 Hreq].
  destruct (cache_stale_frame _ _ _ Hstale) as (Hself & Hfs & Hlog & Hsrv & Htmp & Hclock).
  assert (Hs' : s' = (with_fs (<[token_file_path s :=
                                   JsonFile (JObj [("token", access);
                                                   ("expires_in", JStr (isoformat expiry))])]>
                                 (fs (fst s1)))
                        (with_ticks (S (ticks (fst s1)))
                           (with_net_log (net_log (fst s) ++ [post]) (fst s1))),
                      with_token (mkBearerRequestToken access (Some expiry) (Some answer))
                        (snd s))).
  { subst s'. rewrite (request_auth_token_stale _ _ _ _ Hstale).
    subst post answer. rewrite <- Hreq, <- Hlog, <- Hsrv in Hs, Hbody.
    rewrite (request_new_token_granted isoformat s1 username password _ data access seconds
               Hc1 Hs Hbody Ha He (fromisoformat_is_datetime _ _ Hcodec)).
    cbn [snd]. rewrite Hreq, Hlog, Hsrv, Hself. reflexivity. }
  assert (Hpath : token_file_path s' = token_file_path s).
  { rewrite Hs'. unfold token_file_path. cbn [fst snd tempdir with_fs with_ticks with_net_log
      system_type with_token]. rewrite Htmp, <- Hself. reflexivity. }
  assert (Hcached : cached_expiry fromisoformat s'
                      [("token", access); ("expires_in", JStr (isoformat expiry))] expiry).
  { exists (isoformat expiry). split; [|split; [reflexivity | exact Hcodec]].
    rewrite Hpath, Hs'. cbn [fst fs with_fs]. apply lookup_insert_eq. }
  assert (Hnow : (expiry > clock (fst s') (ticks (fst s')))%Z).
  { rewrite Hs'. cbn [fst clock ticks with_fs with_ticks with_net_log]. exact Hlater. }
  subst again.
  rewrite (request_auth_token_cached isoformat fromisoformat s' _ expiry access
             Hcached eq_refl Hnow).
  cbn [fst snd net_log fs with_ticks]. rewrite Hs'. auto.
Qed.

(** X4. With a token in memory the call goes out with it: the clock is not
    read and the file system not touched, whatever expiry the token has. *)
Theorem held_token_is_not_revalidated s t path params :
  holds_token s t ->
  let get := api_request s path params t in
  let answer := server (fst s) (net_log (fst s) ++ [get]) in
  let r := do_api_call isoformat fromisoformat path params s in
  fst r = Ret (api_result answer) /\
  net_log (fst (snd r)) = (net_log (fst s) ++ [get])%list /\
  ticks (fst (snd r)) = ticks (fst s) /\
  fs (fst (snd r)) = fs (fst s) /\
  snd (snd r) = snd s.
Proof.
  intros Ht get answer r. subst r.
  rewrite (do_api_call_with_token isoformat fromisoformat s t path params Ht).
  destruct s as [w self]. auto 10.
Qed.

(** X5. A call made without a token authenticates first: the token request,
    then the call with the token just granted, when the lifetime granted
    keeps the expiry within the dates of [datetime]. *)
Theorem api_call_authenticates_inline s s1 username password data access seconds path params :
  no_usable_token s ->
  cache_stale fromisoformat s s1 ->
  credentials_are s username password ->
  let post := token_request s username password in
  let granted := server (fst s) (net_log (fst s) ++ [post]) in
  status_code granted = 200%Z ->
  response_text granted = Encodes (JObj data) ->
  dict_get "access_token" data = Some access ->
  dict_get "expires_in" data = Some (JInt seconds) ->
  is_datetime (clock (fst s1) (ticks (fst s1)) + timedelta_seconds seconds) = true ->
  truthy access = true ->
  let get := GET (url (snd s) ++ path) params access in
  let answer := server (fst s) (net_log (fst s) ++ [post; get]) in
  let r := do_api_call isoformat fromisoformat path params s in
  fst r = Ret (api_result answer) /\
  net_log (fst (snd r)) = (net_log (fst s) ++ [post; get])%list /\
  holds_token (snd r)
    (mkBearerRequestToken access
       (Some (clock (fst s1) (ticks (fst s1)) + timedelta_seconds seconds)%Z)
       (Some granted)).
Proof.
  intros Hno Hstale Hc post granted Hs Hbody Ha He Hrange Htruthy get answer r.
  destruct (cache_stale_credentials _ _ _ _ _ Hstale Hc) as [Hc1 Hreq].
  destruct (cache_stale_frame _ _ _ Hstale) as (Hself & Hfs & Hlog & Hsrv & Htmp & Hclock).
  assert (Hauth := request_auth_token_stale isoformat _ _ _ Hstale).
  unfold granted, post in Hs, Hbody. rewrite <- Hreq, <- Hlog, <- Hsrv in Hs, Hbody.
  rewrite (request_new_token_granted isoformat s1 username password _ data access seconds
             Hc1 Hs Hbody Ha He Hrange) in Hauth.
  rewrite Hreq, Hlog, Hsrv in Hauth.
  assert (Hcall : exists s', r = (Ret (api_result answer), s') /\
                    net_log (fst s') = (net_log (fst s) ++ [post; get])%list /\
                    holds_token s'
                      (mkBearerRequestToken access
                         (Some (clock (fst s1) (ticks (fst s1)) + timedelta_seconds seconds)%Z)
                         (Some granted))).
  { subst r answer get post granted.
    unfold do_api_call. unfold bind at 1. unfold is_authenticated, bind at 1, get_self, ret.
    unfold no_usable_token in Hno.
    replace (match self_token s.2 with Some t => truthy (token t) | None => false end)
      with false by (destruct (self_token s.2); auto).
    cbn [negb]. unfold bind at 1. unfold bind at 1. unfold bind at 1.
    rewrite Hauth. exec. rewrite Htruthy. exec.
    rewrite Hself, Hsrv, <- app_assoc. cbn [app].
    unfold api_result.
    destruct (status_code _ =? 200)%Z eqn:Hst; eexists;
      (split; [reflexivity|]; split; [reflexivity|]; split; [reflexivity | exact Htruthy]). }
  destruct Hcall as (s' & Hcall & Hlog' & Hheld). rewrite Hcall. auto.
Qed.

(** A token request that returns leaves its token in [self.token]; the
    address of the database and the server are as before. *)
Lemma request_auth_token_sets_token s t s' :
  request_auth_token isoformat fromisoformat s = (Ret t, s') ->
  self_token (snd s') = Some t /\ url (snd s') = url (snd s) /\
  server (fst s') = server (fst s).
Proof.
  destruct s as [w self]. cbn [fst snd].
  unfold request_auth_token, check_token_cache, request_new_token.
  intros H. revert H. split_cases; intros H; try discriminate H;
    injection H as <- <-; auto.
Qed.

(** X6. Whenever an API call returns, a usable token is held, the last
    request sent is the call itself with that token, and the result is made
    of the answer to it. *)
Theorem returned_call_leaves_token s path params r s' :
  do_api_call isoformat fromisoformat path params s = (Ret r, s') ->
  exists t,
    holds_token s' t /\
    last (net_log (fst s')) = Some (GET (url (snd s) ++ path) params (token t)) /\
    r = api_result (server (fst s) (net_log (fst s'))).
Proof.
  unfold do_api_call. unfold bind at 1.
  destruct (is_authenticated s) as [[authenticated|e] s0] eqn:Hauth;
    [|destruct s as [w self]; discriminate Hauth].
  assert (s0 = s) by (destruct s as [w self]; injection Hauth as _ <-; reflexivity).
  subst s0. unfold bind at 1.
  assert (Hsend : forall s1 t,
             self_token (snd s1) = Some t -> truthy (token t) = true ->
             url (snd s1) = url (snd s) -> server (fst s1) = server (fst s) ->
             (bearer <- self_token_token ;;
              self <- get_self ;;
              response <- requests_get (url self ++ path) params bearer ;;
              if (status_code response =? 200)%Z
              then ret (mkAPICallResult (response_text response) response)
              else ret (mkAPICallResult NotJson response)) s1 = (Ret r, s') ->
             exists t,
               holds_token s' t /\
               last (net_log (fst s')) = Some (GET (url (snd s) ++ path) params (token t)) /\
               r = api_result (server (fst s) (net_log (fst s')))).
  { intros [w1 self1] t Ht Htruthy Hurl Hsrv. cbn [fst snd] in *. exec. rewrite Ht. exec.
    rewrite Hurl, Hsrv. unfold api_result.
    destruct (status_code _ =? 200)%Z eqn:Hst; intros [= <- <-]; exists t;
      cbn [fst snd net_log with_net_log]; rewrite last_snoc, Hst;
      (split; [split; assumption|]; split; reflexivity). }
  destruct authenticated.
  - cbn [negb]. unfold ret at 1. cbn beta iota.
    destruct s as [w self]. cbv [is_authenticated bind get_self ret] in Hauth.
    cbn [fst snd] in *.
    destruct (self_token self) as [t|] eqn:Ht; [|discriminate Hauth].
    assert (Htruthy : truthy (token t) = true) by congruence.
    apply (Hsend (w, self) t); auto.
  - cbn [negb]. unfold bind at 1.
    destruct (request_auth_token isoformat fromisoformat s) as [[t|e] s1] eqn:Hreq;
      [|discriminate].
    destruct (request_auth_token_sets_token _ _ _ Hreq) as (Ht & Hurl & Hsrv).
    unfold bind at 1. unfold self_token_token at 1, bind at 1, get_self, ret.
    destruct s1 as [w1 self1]. cbn [fst snd] in *. rewrite Ht.
    destruct (truthy (token t)) eqn:Htruthy; cbn [negb]; [|discriminate].
    apply (Hsend (w1, self1) t); auto.
Qed.

(** X7. [reset_auth_token] clears the cache file only: a manager that holds a
    token goes on using it. *)
Theorem reset_keeps_token_in_memory s t path params :
  holds_token s t ->
  let s' := snd (reset_auth_token s) in
  let r := do_api_call isoformat fromisoformat path params s' in
  holds_token s' t /\
  net_log (fst (snd r)) = (net_log (fst s) ++ [api_request s path params t])%list /\
  fs (fst (snd r)) !! token_file_path s = None.
Proof.
  intros Ht s' r. subst r s'. rewrite (reset_auth_token_deletes s). cbn [snd].
  assert (Ht' : holds_token (with_fs (delete (token_file_path s) (fs (fst s))) (fst s), snd s) t)
    by exact Ht.
  split; [exact Ht'|].
  rewrite (do_api_call_with_token isoformat fromisoformat _ t path params Ht').
  destruct s as [w self]. cbn [fst snd net_log fs with_fs with_net_log].
  split; [reflexivity|]. apply lookup_delete_eq.
Qed.

(** X23. A lifetime that takes the expiry out of the dates of [datetime]
    makes [request_auth_token] raise OverflowError once the request was
    sent and answered: the token granted is kept neither by the manager
    nor in the cache, and an API call that had to authenticate raises the
    same error before its own request. *)
Theorem overflowing_lifetime_raises s s1 username password data seconds path params :
  cache_stale fromisoformat s s1 ->
  credentials_are s username password ->
  let post := token_request s username password in
  let answer := server (fst s) (net_log (fst s) ++ [post]) in
  status_code answer = 200%Z ->
  response_text answer = Encodes (JObj data) ->
  is_Some (dict_get "access_token" data) ->
  dict_get "expires_in" data = Some (JInt seconds) ->
  is_datetime (clock (fst s1) (ticks (fst s1)) + timedelta_seconds seconds) = false ->
  let r := request_auth_token isoformat fromisoformat s in
  fst r = Raise OverflowError /\
  net_log (fst (snd r)) = (net_log (fst s) ++ [post])%list /\
  fs (fst (snd r)) = fs (fst s) /\
  snd (snd r) = snd s /\
  (no_usable_token s ->
   let call := do_api_call isoformat fromisoformat path params s in
   fst call = Raise OverflowError /\
   net_log (fst (snd call)) = (net_log (fst s) ++ [post])%list).
Proof.
  intros Hstale Hc post answer Hs Hbody Ha He Hrange r.
  destruct (cache_stale_credentials _ _ _ _ _ Hstale Hc) as [Hc1 Hreq].
  destruct (cache_stale_frame _ _ _ Hstale) as (Hself & Hfs & Hlog & Hsrv & _).
  assert (Hauth := request_auth_token_stale isoformat _ _ _ Hstale).
  unfold answer, post in Hs, Hbody. rewrite <- Hreq, <- Hlog, <- Hsrv in Hs, Hbody.
  rewrite (request_new_token_overflow isoformat s1 username password _ data seconds
             Hc1 Hs Hbody Ha He Hrange) in Hauth.
  rewrite Hreq, Hlog in Hauth. fold post in Hauth.
  subst r. rewrite Hauth. cbn [fst snd net_log fs with_ticks with_net_log].
  split; [reflexivity|]. split; [reflexivity|]. split; [exact Hfs|]. split; [exact Hself|].
  intros Hno.
  assert (Hcall : do_api_call isoformat fromisoformat path params s
                  = (Raise OverflowError,
                     (with_ticks (S (ticks (fst s1)))
                        (with_net_log (net_log (fst s) ++ [post]) (fst s1)), snd s1))).
  { unfold do_api_call, bind at 1. unfold is_authenticated, bind at 1, get_self, ret.
    unfold no_usable_token in Hno.
    replace (match self_token s.2 with Some t => truthy (token t) | None => false end)
      with false by (destruct (self_token s.2); auto).
    cbn [negb]. unfold bind at 1. unfold bind at 1. unfold bind at 1.
    rewrite Hauth. reflexivity. }
  rewrite Hcall. split; reflexivity.
Qed.

(** X24. A cached expiry that carries a UTC offset is parsed to an aware
    date, and its comparison with the naive [datetime.now()] raises
    TypeError: the clock was read, and nothing else has happened, whatever
    the expiry and the credentials are. *)
Theorem aware_cached_expiry_raises s members stored :
  fs (fst s) !! token_file_path s = Some (JsonFile (JObj members)) ->
  dict_get "expires_in" members = Some (JStr stored) ->
  fromisoformat stored = Some Aware ->
  request_auth_token isoformat fromisoformat s
  = (Raise TypeError, (with_ticks (S (ticks (fst s))) (fst s), snd s)).
Proof.
  destruct s as [w self]. unfold token_file_path. cbn [fst snd]. intros Hf He Haware.
  unfold request_auth_token, check_token_cache. exec. rewrite Hf.
  rewrite bool_decide_eq_true_2 by eauto. exec. rewrite Hf. exec. rewrite He. exec.
  rewrite Haware. reflexivity.
Qed.

End TokenCache.

(** ** Fetching a dictionary *)

Ltac exec2 :=
  exec; cbn [with_attribute with_headers fst snd url path_to_credentials self_token
             system_type headers_df attributes].

Lemma names_of_not_objects items :
  forallb is_object items = false -> names_of items = Raise AttributeError.
Proof.
  induction items as [|item rest IH]; [discriminate|].
  destruct item; try reflexivity. cbn [forallb is_object andb names_of].
  intros H. rewrite (IH H). reflexivity.
Qed.

Section DictionaryFetch.
Variable isoformat : datetime -> string.
Variable fromisoformat : string -> option parsed_datetime.

(** With a token held, a [get_dictionary] that goes to the API is the one
    request and the treatment of its answer. *)
Lemma get_dictionary_with_token s t path dictionary_name force :
  holds_token s t ->
  fetches s dictionary_name force ->
  let get := api_request s path None t in
  get_dictionary isoformat fromisoformat path dictionary_name force s
  = dictionary_of_result (cache_file_path s dictionary_name)
      (api_result (server (fst s) (net_log (fst s) ++ [get])))
      (with_net_log (net_log (fst s) ++ [get]) (fst s), snd s).
Proof.
  intros Ht Hf get.
  rewrite (get_dictionary_fetches isoformat fromisoformat _ _ _ _ Hf). unfold bind.
  rewrite (do_api_call_with_token isoformat fromisoformat s t path None Ht). reflexivity.
Qed.

Lemma api_result_failed answer :
  status_code answer <> 200%Z -> status_code (response (api_result answer)) <> 200%Z.
Proof.
  intros Hs. unfold api_result. apply Z.eqb_neq in Hs. rewrite Hs. apply Z.eqb_neq, Hs.
Qed.

Lemma api_result_ok answer :
  status_code answer = 200%Z ->
  status_code (response (api_result answer)) = 200%Z /\
  content (api_result answer) = response_text answer.
Proof. intros Hs. unfold api_result. rewrite Hs. auto. Qed.


(** X9. A cache file that is not JSON makes the plain call raise, and a forced
    call that gets a list of objects repairs it. *)
Theorem corrupt_dictionary_cache s t path dictionary_name fields rows :
  fs (fst s) !! cache_file_path s dictionary_name = Some (TextFile fields) ->
  holds_token s t ->
  let get := api_request s path None t in
  let answer := server (fst s) (net_log (fst s) ++ [get]) in
  status_code answer = 200%Z ->
  response_text answer = Encodes (JArr (JObj <$> rows)) ->
  get_dictionary isoformat fromisoformat path dictionary_name false s
  = (Raise JSONDecodeError, s) /\
  let forced := get_dictionary isoformat fromisoformat path dictionary_name true s in
  fst forced = Ret (JArr (name_of <$> rows)) /\
  get_dictionary isoformat fromisoformat path dictionary_name false (snd forced)
  = (Ret (JArr (name_of <$> rows)), snd forced).
Proof.
  intros Hf Ht get answer Hs Hbody. split.
  - destruct s as [w self]. unfold cache_file_path in Hf. cbn [fst snd] in Hf.
    unfold get_dictionary. exec. rewrite Hf.
    rewrite bool_decide_eq_true_2 by eauto. exec. rewrite Hf. reflexivity.
  - cbv zeta.
    rewrite (get_dictionary_with_token s t path _ true Ht (or_introl eq_refl)).
    destruct (api_result_ok _ Hs) as [Hs' Hc']. fold get answer in Hs', Hc' |- *.
    rewrite Hbody in Hc'.
    rewrite (dictionary_of_result_list _ _ _ rows Hs' Hc'). cbn [fst snd].
    split; [reflexivity|].
    apply get_dictionary_cached. destruct s as [w self]. apply lookup_insert_eq.
Qed.

(** X10. A list with an item that is not an object raises AttributeError, and
    the cache is left as it was. *)
Theorem list_item_without_get_raises s t path dictionary_name force items :
  holds_token s t ->
  fetches s dictionary_name force ->
  let get := api_request s path None t in
  let answer := server (fst s) (net_log (fst s) ++ [get]) in
  status_code answer = 200%Z ->
  response_text answer = Encodes (JArr items) ->
  forallb is_object items = false ->
  let r := get_dictionary isoformat fromisoformat path dictionary_name force s in
  fst r = Raise AttributeError /\ fs (fst (snd r)) = fs (fst s).
Proof.
  intros Ht Hf get answer Hs Hbody Hitems r. subst r.
  rewrite (get_dictionary_with_token s t path _ force Ht Hf).
  destruct (api_result_ok _ Hs) as [Hs' Hc']. fold get answer in Hs', Hc' |- *.
  rewrite Hbody in Hc'. unfold dictionary_of_result. rewrite Hs', Hc'. exec.
  rewrite (names_of_not_objects _ Hitems). destruct s; auto.
Qed.

End DictionaryFetch.

Section LoadDictionaries.
Variable isoformat : datetime -> string.
Variable fromisoformat : string -> option parsed_datetime.

(** One dictionary of [load_dictionaries] when the server refuses. *)
Lemma load_step_refused s t path dictionary_name attribute force :
  holds_token s t ->
  unavailable s ->
  fetches s dictionary_name force ->
  bind (get_dictionary isoformat fromisoformat path dictionary_name force)
       (setattr attribute) s
  = (Ret tt, refused_step t s (path, dictionary_name, attribute)).
Proof.
  intros Ht Hdown Hf. unfold bind.
  rewrite (get_dictionary_with_token isoformat fromisoformat s t path _ force Ht Hf).
  rewrite dictionary_of_result_failed by apply api_result_failed, Hdown.
  destruct s as [w self]. reflexivity.
Qed.

Lemma refused_step_keeps t s entry dictionary_name force :
  holds_token s t -> unavailable s -> fetches s dictionary_name force ->
  holds_token (refused_step t s entry) t /\ unavailable (refused_step t s entry) /\
  fetches (refused_step t s entry) dictionary_name force.
Proof. destruct s as [w self]. intros Ht Hdown Hf. auto. Qed.

(** One dictionary of [load_dictionaries] when it is in the cache. *)
Lemma load_step_cached s path dictionary_name attribute value :
  fs (fst s) !! cache_file_path s dictionary_name = Some (JsonFile value) ->
  bind (get_dictionary isoformat fromisoformat path dictionary_name false)
       (setattr attribute) s
  = (Ret tt, (fst s, with_attribute attribute value (snd s))).
Proof.
  intros Hf. unfold bind. rewrite (get_dictionary_cached _ _ _ _ _ _ Hf).
  destruct s as [w self]. reflexivity.
Qed.

(** [load_dictionaries] is its nine steps one after the other. *)
Lemma load_dictionaries_steps force s :
  FIVEDBManager.load_dictionaries isoformat fromisoformat force s
  = fold_right
      (fun entry rest =>
         bind (bind (get_dictionary isoformat fromisoformat entry.1.1 entry.1.2 force)
                 (setattr entry.2))
              (fun _ => rest))
      (ret tt) five_dictionaries s.
Proof.
  unfold FIVEDBManager.load_dictionaries, FIVEDBManager.get_process_types,
    FIVEDBManager.get_parameters, FIVEDBManager.get_cell_types,
    FIVEDBManager.get_stimulated, FIVEDBManager.get_patient_states,
    FIVEDBManager.get_products, FIVEDBManager.get_daughter_cells,
    FIVEDBManager.get_regulators, FIVEDBManager.get_modifiers.
  cbn [fold_right five_dictionaries fst snd]. unfold bind.
  repeat (destruct (get_dictionary _ _ _ _ _ _) as [[?|?] ?]; [|reflexivity];
          destruct (setattr _ _ _) as [[[]|?] ?]; [|reflexivity]).
  reflexivity.
Qed.

Lemma fold_steps_refused t force entries :
  forall s,
    holds_token s t -> unavailable s ->
    (forall entry, entry ∈ entries -> fetches s entry.1.2 force) ->
    fold_right
      (fun entry rest =>
         bind (bind (get_dictionary isoformat fromisoformat entry.1.1 entry.1.2 force)
                 (setattr entry.2))
              (fun _ => rest))
      (ret tt) entries s
    = (Ret tt, fold_left (refused_step t) entries s).
Proof.
  induction entries as [|[[path name] attribute] rest IH]; intros s Ht Hdown Hf;
    [reflexivity|].
  cbn [fold_right fold_left fst snd]. unfold bind at 1.
  rewrite (load_step_refused s t path name attribute force Ht Hdown)
    by (apply (Hf (path, name, attribute)); left).
  destruct (refused_step_keeps t s (path, name, attribute) name force Ht Hdown
              ltac:(apply (Hf (path, name, attribute)); left)) as (Ht' & Hdown' & _).
  apply IH; [exact Ht' | exact Hdown' |].
  intros entry Hin.
  apply (refused_step_keeps t s (path, name, attribute) entry.1.2 force Ht Hdown).
  apply Hf. right. exact Hin.
Qed.

Lemma fold_steps_cached value entries :
  forall s,
    (forall entry, entry ∈ entries ->
       fs (fst s) !! cache_file_path s entry.1.2 = Some (JsonFile (value entry.1.2))) ->
    fold_right
      (fun entry rest =>
         bind (bind (get_dictionary isoformat fromisoformat entry.1.1 entry.1.2 false)
                 (setattr entry.2))
              (fun _ => rest))
      (ret tt) entries s
    = (Ret tt, fold_left (cached_step value) entries s).
Proof.
  induction entries as [|[[path name] attribute] rest IH]; intros s Hf; [reflexivity|].
  cbn [fold_right fold_left fst snd]. unfold bind at 1.
  rewrite (load_step_cached s path name attribute (value name))
    by (apply (Hf (path, name, attribute)); left).
  apply IH. intros entry Hin. destruct s as [w self].
  apply (Hf entry). right. exact Hin.
Qed.

(** X11. When every dictionary is in the cache, [load_dictionaries] sends
    nothing and sets each attribute to what the cache holds for it. *)
Theorem load_dictionaries_from_cache s value :
  (forall entry, entry ∈ five_dictionaries ->
     fs (fst s) !! cache_file_path s entry.1.2 = Some (JsonFile (value entry.1.2))) ->
  exists self',
    FIVEDBManager.load_dictionaries isoformat fromisoformat false s = (Ret tt, (fst s, self')) /\
    Forall (fun entry => attributes self' !! entry.2 = Some (value entry.1.2))
      five_dictionaries /\
    self_token self' = self_token (snd s) /\ headers_df self' = headers_df (snd s).
Proof.
  intros Hf. rewrite load_dictionaries_steps, (fold_steps_cached value _ s Hf).
  destruct s as [w self]. eexists. split; [reflexivity|].
  split; [|split; reflexivity].
  cbn [fold_left five_dictionaries cached_step fst snd with_attribute attributes].
  repeat constructor; cbn [fst snd]; simplify_map_eq; reflexivity.
Qed.

(** X12. When the server refuses everything and nothing is cached (or the load
    is forced), [load_dictionaries] returns all the same: it has sent the
    nine requests, in their order, and every dictionary is [None], also
    one that was loaded before. *)
Theorem load_dictionaries_unavailable s t force :
  holds_token s t ->
  unavailable s ->
  (forall entry, entry ∈ five_dictionaries -> fetches s entry.1.2 force) ->
  exists s',
    FIVEDBManager.load_dictionaries isoformat fromisoformat force s = (Ret tt, s') /\
    net_log (fst s')
    = (net_log (fst s)
       ++ ((fun entry => api_request s entry.1.1 None t) <$> five_dictionaries))%list /\
    Forall (fun entry => attributes (snd s') !! entry.2 = Some JNull) five_dictionaries /\
    fs (fst s') = fs (fst s).
Proof.
  intros Ht Hdown Hf. rewrite load_dictionaries_steps, (fold_steps_refused t force _ s Ht Hdown Hf).
  destruct s as [w self]. eexists. split; [reflexivity|].
  cbn [fold_left five_dictionaries refused_step fst snd with_attribute attributes
       net_log with_net_log fs api_request url fmap list_fmap].
  split; [|split; [|reflexivity]].
  - repeat rewrite <- app_assoc. reflexivity.
  - repeat constructor; cbn [fst snd]; simplify_map_eq; reflexivity.
Qed.

End LoadDictionaries.

(** ** Selections and queries before a failing server *)

Section FailedLoads.
Variable isoformat : datetime -> string.
Variable fromisoformat : string -> option parsed_datetime.

(** X13. With the server refusing and nothing cached, a selection on an
    empty dictionary of the FIVE manager raises TypeError, whatever the
    values: the load it starts sends the nine requests and leaves [None],
    of which [select_elements] cannot make a set. *)
Theorem select_without_dictionary_raises a values s t dictionary :
  five_axis a = true ->
  holds_token s t ->
  unavailable s ->
  (forall entry, entry ∈ five_dictionaries ->
     fs (fst s) !! cache_file_path s entry.1.2 = None) ->
  attributes (snd s) !! attribute_of a = Some dictionary ->
  truthy dictionary = false ->
  let r := select_axis isoformat fromisoformat a values s in
  fst r = Raise TypeError /\
  net_log (fst (snd r))
  = (net_log (fst s)
     ++ ((fun entry => api_request s entry.1.1 None t) <$> five_dictionaries))%list.
Proof.
  intros Ha Ht Hdown Hnone Hd Hfalse r. subst r.
  rewrite select_axis_body.
  assert (Hload : load_dictionaries_of isoformat fromisoformat a false s
                  = (Ret tt, fold_left (refused_step t) five_dictionaries s)).
  { replace (load_dictionaries_of isoformat fromisoformat a)
      with (FIVEDBManager.load_dictionaries isoformat fromisoformat)
      by (destruct a; try discriminate Ha; reflexivity).
    rewrite load_dictionaries_steps. apply fold_steps_refused; [exact Ht | exact Hdown |].
    intros entry Hin. right. apply Hnone, Hin. }
  assert (Hnull : attributes (snd (fold_left (refused_step t) five_dictionaries s))
                  !! attribute_of a = Some JNull).
  { destruct s as [w self].
    cbn [fold_left five_dictionaries refused_step fst snd with_attribute attributes].
    destruct a; try discriminate Ha; cbn [attribute_of]; simplify_map_eq; reflexivity. }
  assert (Heq : select (load_dictionaries_of isoformat fromisoformat a) (attribute_of a)
                  (caption_of a) values s
                = (Raise TypeError, fold_left (refused_step t) five_dictionaries s)).
  { unfold select, check_attribute, check_dictionary.
    cbv [bind getattr get_self ret]. rewrite Hd, Hfalse. cbn [negb]. rewrite Hload.
    rewrite Hnull. reflexivity. }
  rewrite Heq. cbn [fst snd]. split; [reflexivity|].
  destruct s as [w self].
  cbn [fold_left five_dictionaries refused_step fst snd with_attribute attributes
       net_log with_net_log fs api_request url fmap list_fmap].
  repeat rewrite <- app_assoc. reflexivity.
Qed.

(** X14. When the answer of the query endpoint to the request of
    [query_data] is a 200 whose text is not JSON, [query_data] raises:
    unlike [get_dictionary] it does not turn the failure into [None].
    Nothing is asked of the other answers of the server. *)
Theorem query_data_raises_on_bad_json s t
    process_type parameter cell_type stimulated patient_state product daughter
    regulator modifier species tissue_types diseases markers headers wstat_switch :
  holds_token s t ->
  (garbled_query s t
     (FIVEDBManager.query_params process_type parameter cell_type stimulated patient_state
        product daughter regulator modifier headers wstat_switch) ->
   fst (FIVEDBManager.query_data isoformat fromisoformat process_type parameter cell_type
          stimulated patient_state product daughter regulator modifier headers wstat_switch s)
   = Raise JSONDecodeError) /\
  (garbled_query s t
     (CytoconDBManager.query_params species tissue_types diseases markers headers
        wstat_switch) ->
   fst (CytoconDBManager.query_data isoformat fromisoformat species tissue_types diseases
          markers headers wstat_switch s)
   = Raise JSONDecodeError).
Proof.
  intros Ht.
  unfold FIVEDBManager.query_data, CytoconDBManager.query_data. cbv zeta. unfold bind.
  rewrite !(do_api_call_with_token isoformat fromisoformat s t _ _ Ht).
  unfold api_result, garbled_query.
  split; intros [Hs Hb]; rewrite Hs; cbn [Z.eqb Pos.eqb response content status_code];
    rewrite Hs, Hb; reflexivity.
Qed.

End FailedLoads.

(** ** The header catalogue *)

Lemma string_app_length (a b : string) :
  String.length (a ++ b) = String.length a + String.length b.
Proof. induction a as [|ch a IH]; simpl; [reflexivity|]. rewrite IH. reflexivity. Qed.

Lemma string_app_inj_r (a b c : string) : a ++ c = b ++ c -> a = b.
Proof.
  revert b. induction a as [|x a IH]; intros [|y b] H.
  - reflexivity.
  - apply (f_equal String.length) in H. rewrite !string_app_length in H. simpl in H. lia.
  - apply (f_equal String.length) in H. rewrite !string_app_length in H. simpl in H. lia.
  - injection H as -> H. f_equal. apply IH, H.
Qed.

(** Two names join a directory to two paths, unless they are absolute. *)
Lemma os_path_join_inj (a b c : string) :
  startswith_slash b = false -> startswith_slash c = false ->
  os_path_join a b = os_path_join a c -> b = c.
Proof.
  unfold os_path_join. intros -> ->.
  destruct (String.eqb a "" || endswith_slash a).
  - apply string_app_inj_l.
  - intros H. apply string_app_inj_l in H. apply (string_app_inj_l "/") in H. exact H.
Qed.

(** The records written for a table are read back as this table. *)
Lemma header_record_round_trip row : header_of_record (record_of_header row) = Some row.
Proof. destruct row. reflexivity. Qed.

Lemma header_records_round_trip df :
  mapM header_of_record (record_of_header <$> df) = Some df.
Proof.
  induction df as [|row df IH]; [reflexivity|].
  rewrite fmap_cons. cbn [mapM]. rewrite header_record_round_trip, IH. reflexivity.
Qed.

Lemma pd_DataFrame_headers_round_trip df :
  pd_DataFrame_headers (to_dict_records df) = Ret df.
Proof. unfold pd_DataFrame_headers, to_dict_records. rewrite header_records_round_trip. reflexivity. Qed.

(** [query_headers] of the FIVE manager is [query_headers_at] at the name
    [query_headers_5db.json] and the address [/api/v1/query_data_headers];
    the one of the Cytocon manager is [query_headers_at] at the name and
    the address of the disease.  What follows holds at every name and
    address, so for both. *)

Section QueryHeaders.
Variable isoformat : datetime -> string.
Variable fromisoformat : string -> option parsed_datetime.

Lemma query_headers_at_cached cache_name path s data :
  fs (fst s) !! headers_file s cache_name = Some (JsonFile data) ->
  query_headers_at isoformat fromisoformat cache_name path false s
  = match pd_DataFrame_headers data with
    | Ret df => (Ret (Some df), (fst s, with_headers df (snd s)))
    | Raise e => (Raise e, s)
    end.
Proof.
  destruct s as [w self]. unfold headers_file. cbn [fst snd]. intros Hf.
  unfold query_headers_at, set_headers. exec. rewrite Hf.
  rewrite bool_decide_eq_true_2 by eauto. exec. rewrite Hf. exec.
  destruct (pd_DataFrame_headers data); reflexivity.
Qed.

Lemma query_headers_at_fetches cache_name path force s t :
  holds_token s t ->
  force = true \/ fs (fst s) !! headers_file s cache_name = None ->
  let get := api_request s path None t in
  query_headers_at isoformat fromisoformat cache_name path force s
  = headers_of_result (headers_file s cache_name)
      (api_result (server (fst s) (net_log (fst s) ++ [get])))
      (with_net_log (net_log (fst s) ++ [get]) (fst s), snd s).
Proof.
  intros Ht Hforce get. subst get.
  pose proof (do_api_call_with_token isoformat fromisoformat s t path None Ht) as Hcall.
  cbv zeta in Hcall. destruct s as [w self]. unfold headers_file in *. cbn [fst snd] in *.
  destruct force.
  - unfold query_headers_at. exec. rewrite Hcall. reflexivity.
  - destruct Hforce as [Hforce | Hnone]; [discriminate Hforce|].
    unfold query_headers_at. exec. rewrite Hnone.
    rewrite bool_decide_eq_false_2 by (intros [? ?]; discriminate).
    exec. rewrite Hcall. reflexivity.
Qed.

Lemma headers_of_result_ok cache_file answer s response_content df :
  status_code answer = 200%Z ->
  response_text answer = Encodes response_content ->
  pd_DataFrame_headers (records_in response_content) = Ret df ->
  headers_of_result cache_file (api_result answer) s
  = (Ret (Some df),
     (with_fs (<[cache_file := JsonFile (to_dict_records df)]> (fs (fst s))) (fst s),
      with_headers df (snd s))).
Proof.
  intros Hs Hb Hdf. unfold headers_of_result, api_result, set_headers. rewrite Hs.
  cbn [Z.eqb Pos.eqb response content status_code]. rewrite Hs. cbn [Z.eqb Pos.eqb].
  rewrite Hb. destruct s as [w self]. exec.
  unfold records_in in Hdf. rewrite Hdf. reflexivity.
Qed.


(** X15. A cached catalogue is returned and becomes the one of the manager with
    no token, no request and no reading of the clock: the rest of the
    state is as before. *)
Theorem cached_headers_need_no_token cache_name path s df :
  fs (fst s) !! headers_file s cache_name = Some (JsonFile (to_dict_records df)) ->
  query_headers_at isoformat fromisoformat cache_name path false s
  = (Ret (Some df), (fst s, with_headers df (snd s))).
Proof.
  intros Hf. rewrite (query_headers_at_cached _ _ _ _ Hf), pd_DataFrame_headers_round_trip.
  reflexivity.
Qed.

(** X16. A catalogue that was fetched is read back: after a successful fetch
    (forced or not) into a cache file of the temp directory (its name is a
    file name, so that the file can be created), the file holds the
    records of the table, and a call that is not forced returns the same
    table and changes nothing. *)
Theorem header_catalogue_round_trip cache_name path force s t response_content df :
  is_file_name cache_name = true ->
  holds_token s t ->
  force = true \/ fs (fst s) !! headers_file s cache_name = None ->
  let get := api_request s path None t in
  let answer := server (fst s) (net_log (fst s) ++ [get]) in
  status_code answer = 200%Z ->
  response_text answer = Encodes response_content ->
  pd_DataFrame_headers (records_in response_content) = Ret df ->
  let s1 := with_catalogue s get (headers_file s cache_name) df in
  query_headers_at isoformat fromisoformat cache_name path force s = (Ret (Some df), s1) /\
  query_headers_at isoformat fromisoformat cache_name path false s1 = (Ret (Some df), s1).
Proof.
  intros _ Ht Hforce get answer Hs Hb Hdf s1. split.
  - rewrite (query_headers_at_fetches _ _ _ _ _ Ht Hforce).
    rewrite (headers_of_result_ok _ _ _ _ _ Hs Hb Hdf). reflexivity.
  - assert (Hf : fs (fst s1) !! headers_file s1 cache_name
                 = Some (JsonFile (to_dict_records df))).
    { subst s1. unfold with_catalogue, headers_file. destruct s as [w self].
      cbn [fst snd tempdir with_fs with_net_log fs]. apply lookup_insert_eq. }
    rewrite (query_headers_at_cached _ _ _ _ Hf), pd_DataFrame_headers_round_trip.
    subst s1. unfold with_catalogue. destruct s as [w self]. reflexivity.
Qed.

(** X17. An answer that is one record, not a list, gives a table of one row,
    and the cache file, a file of the temp directory (its name is a file
    name), holds a list of one record. *)
Theorem single_header_record_is_listed cache_name path force s t members row :
  is_file_name cache_name = true ->
  holds_token s t ->
  force = true \/ fs (fst s) !! headers_file s cache_name = None ->
  let get := api_request s path None t in
  let answer := server (fst s) (net_log (fst s) ++ [get]) in
  status_code answer = 200%Z ->
  response_text answer = Encodes (JObj members) ->
  header_of_record (JObj members) = Some row ->
  let r := query_headers_at isoformat fromisoformat cache_name path force s in
  fst r = Ret (Some [row]) /\
  fs (fst (snd r)) !! headers_file s cache_name = Some (JsonFile (JArr [JObj members])).
Proof.
  intros _ Ht Hforce get answer Hs Hb Hrow r. subst r.
  rewrite (query_headers_at_fetches _ _ _ _ _ Ht Hforce).
  assert (Hdf : pd_DataFrame_headers (records_in (JObj members)) = Ret [row]).
  { unfold records_in, pd_DataFrame_headers. cbn [mapM]. rewrite Hrow. reflexivity. }
  rewrite (headers_of_result_ok _ _ _ _ _ Hs Hb Hdf). cbn [fst snd with_fs fs].
  split; [reflexivity|]. rewrite lookup_insert_eq. do 2 f_equal.
  unfold to_dict_records. cbn [fmap list_fmap]. do 2 f_equal.
  unfold header_of_record in Hrow.
  destruct members as [|[c1 [| | |d| |]] [|[c2 [| | |v| |]] [|]]]; try discriminate Hrow.
  destruct (String.eqb c1 "ColumnDesc") eqn:H1; [|discriminate Hrow].
  destruct (String.eqb c2 "ColumnVariable") eqn:H2; [|discriminate Hrow].
  apply String.eqb_eq in H1, H2. subst. injection Hrow as <-. reflexivity.
Qed.



(** X20. An empty list from the server is a catalogue: it is returned (not
    [None]) and cached in its file of the temp directory (the name of the
    file is a file name), and [select_header] then reports that the
    headers are not loaded, also for no description at all. *)
Theorem empty_catalogue_is_not_loaded cache_name path force s t descriptions :
  is_file_name cache_name = true ->
  holds_token s t ->
  force = true \/ fs (fst s) !! headers_file s cache_name = None ->
  let get := api_request s path None t in
  let answer := server (fst s) (net_log (fst s) ++ [get]) in
  status_code answer = 200%Z ->
  response_text answer = Encodes (JArr []) ->
  let r := query_headers_at isoformat fromisoformat cache_name path force s in
  fst r = Ret (Some []) /\
  fs (fst (snd r)) !! headers_file s cache_name = Some (JsonFile (JArr [])) /\
  fst (select_header descriptions (snd r)) = Raise (ValueError HeadersNotLoaded).
Proof.
  intros _ Ht Hforce get answer Hs Hb r. subst r.
  rewrite (query_headers_at_fetches _ _ _ _ _ Ht Hforce).
  rewrite (headers_of_result_ok _ _ _ (JArr []) [] Hs Hb eq_refl). cbn [fst snd with_fs fs].
  split; [reflexivity|]. split; [apply lookup_insert_eq|]. reflexivity.
Qed.

(** X21. The Cytocon manager keeps one cache file per disease: whatever a call
    for one disease does, the cache of another disease is as before. *)
Theorem cytocon_header_caches_are_separate s t diseases other force :
  holds_token s t ->
  diseases <> other ->
  let r := CytoconDBManager.query_headers isoformat fromisoformat diseases force s in
  fs (fst (snd r)) !! headers_file s ("query_headers_" ++ other ++ ".json")
  = fs (fst s) !! headers_file s ("query_headers_" ++ other ++ ".json").
Proof.
  intros Ht Hne r. subst r. unfold CytoconDBManager.query_headers.
  set (name := "query_headers_" ++ diseases ++ ".json").
  set (path := "/api/v1/query_data_headers?diseases=" ++ diseases).
  assert (Hfile : headers_file s name <> headers_file s ("query_headers_" ++ other ++ ".json")).
  { unfold headers_file, name. intros H. apply os_path_join_inj in H; [|reflexivity..].
    apply (string_app_inj_l "query_headers_") in H. apply string_app_inj_r in H.
    exact (Hne H). }
  destruct force.
  - rewrite (query_headers_at_fetches name path true s t Ht (or_introl eq_refl)).
    unfold headers_of_result, set_headers.
    destruct s as [w self]. split_cases; try reflexivity;
    rewrite lookup_insert_ne by exact Hfile; reflexivity.
  - destruct (fs (fst s) !! headers_file s name) as [[data|fields]|] eqn:Hf.
    + rewrite (query_headers_at_cached name path s data Hf).
      destruct (pd_DataFrame_headers data); reflexivity.
    + destruct s as [w self]. unfold headers_file in Hf. cbn [fst snd] in Hf.
      unfold query_headers_at. exec. rewrite Hf.
      rewrite bool_decide_eq_true_2 by eauto. exec. rewrite Hf. reflexivity.
    + rewrite (query_headers_at_fetches name path false s t Ht (or_intror Hf)).
      unfold headers_of_result, set_headers.
      destruct s as [w self]. split_cases; try reflexivity;
      rewrite lookup_insert_ne by exact Hfile; reflexivity.
Qed.

(** X22. A manager as its constructor leaves it has no catalogue:
    [select_header] raises before it looks at a description, and sends
    nothing. *)
Theorem select_header_before_query_headers w url path_to_credentials descriptions :
  select_header descriptions (w, FIVEDBManager.init url path_to_credentials)
  = (Raise (ValueError HeadersNotLoaded), (w, FIVEDBManager.init url path_to_credentials)) /\
  select_header descriptions (w, CytoconDBManager.init url path_to_credentials)
  = (Raise (ValueError HeadersNotLoaded), (w, CytoconDBManager.init url path_to_credentials)).
Proof. split; reflexivity. Qed.

End QueryHeaders.

(** * The further properties at work *)

(** X1 at work: the cached entry has a token and no expiry. *)
Lemma unreadable_token_cache_raises_witness :
  request_auth_token demo_isoformat demo_fromisoformat broken_cache_state
  = (Raise (KeyError "expires_in"), broken_cache_state).
Proof.
  apply (unreadable_token_cache_raises demo_isoformat demo_fromisoformat broken_cache_state
           (JsonFile (JObj [("token", JStr "old")]))); vm_compute; reflexivity.
Defined.

(** X2 at work: neither a token cache nor a credentials file. *)
Lemma credentials_errors_precede_request_witness :
  request_auth_token demo_isoformat demo_fromisoformat missing_credentials_state
  = (Raise (FileNotFoundError "credentials.txt"), missing_credentials_state).
Proof.
  assert (Hstale : cache_stale demo_fromisoformat missing_credentials_state
                     missing_credentials_state)
    by (apply stale_absent; vm_compute; reflexivity).
  destruct (credentials_errors_precede_request demo_isoformat demo_fromisoformat
              missing_credentials_state missing_credentials_state Hstale) as [Hmissing _].
  apply Hmissing. vm_compute. reflexivity.
Defined.

Lemma demo_fromisoformat_is_datetime stored t :
  demo_fromisoformat stored = Some (Naive t) -> is_datetime t = true.
Proof.
  unfold demo_fromisoformat, demo_date.
  destruct (without_Z stored) as [numeral|].
  - destruct (NilZero.int_of_string numeral) as [n|]; [|discriminate].
    destruct (is_datetime (Z.of_int n)); discriminate.
  - destruct (NilZero.int_of_string stored) as [n|]; [|discriminate].
    destruct (is_datetime (Z.of_int n)) eqn:H; [|discriminate].
    intros [= <-]. exact H.
Qed.

(** X3 at work: the entry that expired at 400 s is replaced at 501 s by a token good for 3600 s, which the next request reads back. *)
Lemma granted_token_is_read_back_witness :
  let s := stale_cache_state (granting_server not_found) in
  let s' := snd (request_auth_token demo_isoformat demo_fromisoformat s) in
  let again := request_auth_token demo_isoformat demo_fromisoformat s' in
  fst again = Ret (mkBearerRequestToken (JStr "abc") (Some 4101000000%Z) None) /\
  net_log (fst (snd again)) = [token_request s "alice" "secret"] /\
  fs (fst (snd again)) = fs (fst s').
Proof.
  cbv zeta.
  apply (granted_token_is_read_back demo_isoformat demo_fromisoformat
           demo_fromisoformat_is_datetime
           (stale_cache_state (granting_server not_found))
           (after_reading (stale_cache_state (granting_server not_found)))
           "alice" "secret"
           [("access_token", JStr "abc"); ("expires_in", JInt 3600)] (JStr "abc") 3600
           (stale_cache_state_is_stale (granting_server not_found))
           (stale_cache_state_credentials (granting_server not_found)));
    vm_compute; reflexivity.
Defined.

(** X4 at work: a call with the token in memory, refused by the server. *)
Lemma held_token_is_not_revalidated_witness :
  let s := loaded_state not_found in
  let get := api_request s "/api/v1/parameters" None demo_token in
  let r := do_api_call demo_isoformat demo_fromisoformat "/api/v1/parameters" None s in
  fst r = Ret (api_result not_found) /\
  net_log (fst (snd r)) = [get] /\
  ticks (fst (snd r)) = 0 /\
  fs (fst (snd r)) = demo_credentials /\
  snd (snd r) = loaded_manager.
Proof.
  exact (held_token_is_not_revalidated demo_isoformat demo_fromisoformat
           (loaded_state not_found) demo_token "/api/v1/parameters" None
           (loaded_state_holds_token not_found)).
Defined.

(** X5 at work: a new manager calls: the token request, then the call. *)
Lemma api_call_authenticates_inline_witness :
  let s := no_cache_state (granting_server not_found) in
  let post := token_request s "alice" "secret" in
  let get := GET "https://fivedb.example/api/v1/parameters" None (JStr "abc") in
  let r := do_api_call demo_isoformat demo_fromisoformat "/api/v1/parameters" None s in
  fst r = Ret (api_result not_found) /\
  net_log (fst (snd r)) = [post; get] /\
  holds_token (snd r) (mkBearerRequestToken (JStr "abc") (Some 4100000000%Z) (Some demo_grant)).
Proof.
  cbv zeta.
  apply (api_call_authenticates_inline demo_isoformat demo_fromisoformat
           (no_cache_state (granting_server not_found))
           (no_cache_state (granting_server not_found)) "alice" "secret"
           [("access_token", JStr "abc"); ("expires_in", JInt 3600)] (JStr "abc") 3600
           "/api/v1/parameters" None I
           (no_cache_state_is_stale (granting_server not_found))
           (no_cache_state_credentials (granting_server not_found)));
    vm_compute; reflexivity.
Defined.

(** X6 at work: the call of a new manager returns, with a 404. *)
Lemma returned_call_leaves_token_witness :
  let s := no_cache_state (granting_server not_found) in
  let out := do_api_call demo_isoformat demo_fromisoformat "/api/v1/products" None s in
  exists t,
    holds_token (snd out) t /\
    last (net_log (fst (snd out)))
    = Some (GET ("https://fivedb.example" ++ "/api/v1/products") None (token t)) /\
    api_result not_found = api_result (server (fst s) (net_log (fst (snd out)))).
Proof.
  cbv zeta.
  apply (returned_call_leaves_token demo_isoformat demo_fromisoformat
           (no_cache_state (granting_server not_found)) "/api/v1/products" None
           (api_result not_found)).
  vm_compute. reflexivity.
Defined.

(** X7 at work: a reset, then a call. *)
Lemma reset_keeps_token_in_memory_witness :
  let s := loaded_state not_found in
  let s' := snd (reset_auth_token s) in
  let r := do_api_call demo_isoformat demo_fromisoformat "/api/v1/products" None s' in
  holds_token s' demo_token /\
  net_log (fst (snd r)) = [api_request s "/api/v1/products" None demo_token] /\
  fs (fst (snd r)) !! token_file_path s = None.
Proof.
  exact (reset_keeps_token_in_memory demo_isoformat demo_fromisoformat
           (loaded_state not_found) demo_token "/api/v1/products" None
           (loaded_state_holds_token not_found)).
Defined.


Lemma corrupt_cache_state_holds_token get_answer :
  holds_token (corrupt_cache_state get_answer) demo_token.
Proof. split; reflexivity. Qed.

(** X9 at work: the cache of the parameters is no JSON, and the server has one parameter. *)
Lemma corrupt_dictionary_cache_witness :
  let s := corrupt_cache_state (ok (JArr [JObj [("Name", JStr "Emax")]])) in
  get_dictionary demo_isoformat demo_fromisoformat "/api/v1/parameters" "parameters" false s
  = (Raise JSONDecodeError, s) /\
  let forced := get_dictionary demo_isoformat demo_fromisoformat "/api/v1/parameters"
                  "parameters" true s in
  fst forced = Ret (JArr [JStr "Emax"]) /\
  get_dictionary demo_isoformat demo_fromisoformat "/api/v1/parameters" "parameters" false
    (snd forced)
  = (Ret (JArr [JStr "Emax"]), snd forced).
Proof.
  cbv zeta.
  apply (corrupt_dictionary_cache demo_isoformat demo_fromisoformat
           (corrupt_cache_state (ok (JArr [JObj [("Name", JStr "Emax")]]))) demo_token
           "/api/v1/parameters" "parameters" ["garbage"] [[("Name", JStr "Emax")]]);
    [vm_compute; reflexivity | apply corrupt_cache_state_holds_token
    | vm_compute; reflexivity | vm_compute; reflexivity].
Defined.

(** X10 at work: the server answers with a list of one string. *)
Lemma list_item_without_get_raises_witness :
  let s := loaded_state (ok (JArr [JStr "Emax"])) in
  let r := get_dictionary demo_isoformat demo_fromisoformat "/api/v1/parameters"
             "parameters" true s in
  fst r = Raise AttributeError /\ fs (fst (snd r)) = fs (fst s).
Proof.
  cbv zeta.
  apply (list_item_without_get_raises demo_isoformat demo_fromisoformat
           (loaded_state (ok (JArr [JStr "Emax"]))) demo_token "/api/v1/parameters"
           "parameters" true [JStr "Emax"] (loaded_state_holds_token _) (or_introl eq_refl));
    vm_compute; reflexivity.
Defined.

Lemma cached_dictionaries_state_caches entry :
  entry ∈ five_dictionaries ->
  fs (fst cached_dictionaries_state) !! cache_file_path cached_dictionaries_state entry.1.2
  = Some (JsonFile (demo_dictionary entry.1.2)).
Proof.
  intros Hin. unfold five_dictionaries in Hin.
  repeat (apply elem_of_cons in Hin as [-> | Hin]; [vm_compute; reflexivity|]).
  inversion Hin.
Qed.

(** X11 at work: a new manager, a server that refuses, and the nine dictionaries in the cache. *)
Lemma load_dictionaries_from_cache_witness :
  exists self',
    FIVEDBManager.load_dictionaries demo_isoformat demo_fromisoformat false
      cached_dictionaries_state
    = (Ret tt, (fst cached_dictionaries_state, self')) /\
    Forall (fun entry => attributes self' !! entry.2 = Some (demo_dictionary entry.1.2))
      five_dictionaries /\
    self_token self' = self_token (snd cached_dictionaries_state) /\
    headers_df self' = headers_df (snd cached_dictionaries_state).
Proof.
  exact (load_dictionaries_from_cache demo_isoformat demo_fromisoformat
           cached_dictionaries_state demo_dictionary cached_dictionaries_state_caches).
Defined.

Lemma answering_state_holds_token answers :
  holds_token (answering_state answers) demo_token.
Proof. split; reflexivity. Qed.

Lemma refusing_server_unavailable : unavailable (answering_state refusing_server).
Proof. intros history. vm_compute. discriminate. Qed.

Lemma answering_state_no_cache answers entry :
  entry ∈ five_dictionaries ->
  fs (fst (answering_state answers)) !! cache_file_path (answering_state answers) entry.1.2
  = None.
Proof.
  intros Hin. unfold five_dictionaries in Hin.
  repeat (apply elem_of_cons in Hin as [-> | Hin]; [vm_compute; reflexivity|]).
  inversion Hin.
Qed.

(** X12 at work: a forced load before a server that refuses. *)
Lemma load_dictionaries_unavailable_witness :
  let s := answering_state refusing_server in
  exists s',
    FIVEDBManager.load_dictionaries demo_isoformat demo_fromisoformat true s = (Ret tt, s') /\
    net_log (fst s')
    = (net_log (fst s)
       ++ ((fun entry => api_request s entry.1.1 None demo_token) <$> five_dictionaries))%list /\
    Forall (fun entry => attributes (snd s') !! entry.2 = Some JNull) five_dictionaries /\
    fs (fst s') = fs (fst s).
Proof.
  exact (load_dictionaries_unavailable demo_isoformat demo_fromisoformat
           (answering_state refusing_server) demo_token true
           (answering_state_holds_token refusing_server) refusing_server_unavailable
           (fun entry _ => or_introl eq_refl)).
Defined.

(** X13 at work: no cell types, a server that refuses, and a selection of no value. *)
Lemma select_without_dictionary_raises_witness :
  let s := answering_state refusing_server in
  let r := select_axis demo_isoformat demo_fromisoformat CellTypes [] s in
  fst r = Raise TypeError /\
  net_log (fst (snd r))
  = (net_log (fst s)
     ++ ((fun entry => api_request s entry.1.1 None demo_token) <$> five_dictionaries))%list.
Proof.
  refine (select_without_dictionary_raises demo_isoformat demo_fromisoformat CellTypes []
            (answering_state refusing_server) demo_token (JArr []) eq_refl
            (answering_state_holds_token refusing_server) refusing_server_unavailable
            (answering_state_no_cache refusing_server) _ eq_refl).
  vm_compute. reflexivity.
Defined.

(** X14 at work: the server grants tokens and answers every other request
    with a 200 that is no JSON. *)
Lemma query_data_raises_on_bad_json_witness :
  let s := loaded_state (mkResponse 200 NotJson) in
  fst (FIVEDBManager.query_data demo_isoformat demo_fromisoformat ["Migration"] ["Emax"]
         [] [] [] [] [] [] [] ["param"] "false" s)
  = Raise JSONDecodeError /\
  fst (CytoconDBManager.query_data demo_isoformat demo_fromisoformat [] [] [] []
         ["param"] "false" s)
  = Raise JSONDecodeError.
Proof.
  cbv zeta.
  destruct (query_data_raises_on_bad_json demo_isoformat demo_fromisoformat
              (loaded_state (mkResponse 200 NotJson)) demo_token
              ["Migration"] ["Emax"] [] [] [] [] [] [] [] [] [] [] [] ["param"] "false"
              (loaded_state_holds_token _)) as [Hfive Hcytocon].
  split; [apply Hfive | apply Hcytocon]; split; reflexivity.
Defined.

(** X15 at work: a new manager, a server that refuses, and the catalogue in the cache. *)
Lemma cached_headers_need_no_token_witness :
  FIVEDBManager.query_headers demo_isoformat demo_fromisoformat false cached_headers_state
  = (Ret (Some demo_headers),
     (fst cached_headers_state, with_headers demo_headers (snd cached_headers_state))).
Proof.
  apply (cached_headers_need_no_token demo_isoformat demo_fromisoformat
           "query_headers_5db.json" "/api/v1/query_data_headers" cached_headers_state
           demo_headers).
  vm_compute. reflexivity.
Defined.

(** X16 at work: a forced fetch of two headers, then a call that reads them back. *)
Lemma header_catalogue_round_trip_witness :
  let s := loaded_state (ok (to_dict_records demo_headers)) in
  let get := api_request s "/api/v1/query_data_headers" None demo_token in
  let s1 := with_catalogue s get (headers_file s "query_headers_5db.json") demo_headers in
  FIVEDBManager.query_headers demo_isoformat demo_fromisoformat true s
  = (Ret (Some demo_headers), s1) /\
  FIVEDBManager.query_headers demo_isoformat demo_fromisoformat false s1
  = (Ret (Some demo_headers), s1).
Proof.
  cbv zeta.
  apply (header_catalogue_round_trip demo_isoformat demo_fromisoformat
           "query_headers_5db.json" "/api/v1/query_data_headers" true
           (loaded_state (ok (to_dict_records demo_headers))) demo_token
           (to_dict_records demo_headers) demo_headers
           eq_refl (loaded_state_holds_token _) (or_introl eq_refl));
    vm_compute; reflexivity.
Defined.

(** X17 at work: the server answers with one record. *)
Lemma single_header_record_is_listed_witness :
  let record := [("ColumnDesc", JStr "Parameter"); ("ColumnVariable", JStr "param")] in
  let s := loaded_state (ok (JObj record)) in
  let r := FIVEDBManager.query_headers demo_isoformat demo_fromisoformat false s in
  fst r = Ret (Some [mkHeader "Parameter" "param"]) /\
  fs (fst (snd r)) !! headers_file s "query_headers_5db.json"
  = Some (JsonFile (JArr [JObj record])).
Proof.
  cbv zeta.
  apply (single_header_record_is_listed demo_isoformat demo_fromisoformat
           "query_headers_5db.json" "/api/v1/query_data_headers" false
           (loaded_state (ok (JObj [("ColumnDesc", JStr "Parameter");
                                    ("ColumnVariable", JStr "param")])))
           demo_token
           [("ColumnDesc", JStr "Parameter"); ("ColumnVariable", JStr "param")]
           (mkHeader "Parameter" "param")
           eq_refl (loaded_state_holds_token _));
    [right; vm_compute; reflexivity | vm_compute; reflexivity ..].
Defined.



(** X20 at work: the server has no header. *)
Lemma empty_catalogue_is_not_loaded_witness :
  let s := loaded_state (ok (JArr [])) in
  let r := FIVEDBManager.query_headers demo_isoformat demo_fromisoformat true s in
  fst r = Ret (Some []) /\
  fs (fst (snd r)) !! headers_file s "query_headers_5db.json" = Some (JsonFile (JArr [])) /\
  fst (select_header ["Parameter"] (snd r)) = Raise (ValueError HeadersNotLoaded).
Proof.
  cbv zeta.
  apply (empty_catalogue_is_not_loaded demo_isoformat demo_fromisoformat
           "query_headers_5db.json" "/api/v1/query_data_headers" true
           (loaded_state (ok (JArr []))) demo_token ["Parameter"]
           eq_refl (loaded_state_holds_token _) (or_introl eq_refl));
    vm_compute; reflexivity.
Defined.

Lemma cytocon_state_holds_token get_answer :
  holds_token (cytocon_state get_answer) demo_token.
Proof. split; reflexivity. Qed.

(** X21 at work: a forced fetch for one disease and the cache of another. *)
Lemma cytocon_header_caches_are_separate_witness :
  let s := cytocon_state (ok (to_dict_records demo_headers)) in
  let r := CytoconDBManager.query_headers demo_isoformat demo_fromisoformat "asthma" true s in
  fs (fst (snd r)) !! headers_file s ("query_headers_" ++ "copd" ++ ".json")
  = fs (fst s) !! headers_file s ("query_headers_" ++ "copd" ++ ".json").
Proof.
  apply (cytocon_header_caches_are_separate demo_isoformat demo_fromisoformat
           (cytocon_state (ok (to_dict_records demo_headers))) demo_token "asthma" "copd" true
           (cytocon_state_holds_token _)).
  discriminate.
Defined.

(** X23 at work: a new manager, no cache, and a lifetime of 10^12 seconds. *)
Lemma overflowing_lifetime_raises_witness :
  let s := no_cache_state eternal_server in
  let post := token_request s "alice" "secret" in
  let r := request_auth_token demo_isoformat demo_fromisoformat s in
  let call := do_api_call demo_isoformat demo_fromisoformat "/api/v1/products" None s in
  fst r = Raise OverflowError /\
  net_log (fst (snd r)) = [post] /\
  fs (fst (snd r)) = demo_credentials /\
  snd (snd r) = demo_manager /\
  fst call = Raise OverflowError /\
  net_log (fst (snd call)) = [post].
Proof.
  cbv zeta.
  destruct (overflowing_lifetime_raises demo_isoformat demo_fromisoformat
              (no_cache_state eternal_server) (no_cache_state eternal_server)
              "alice" "secret"
              [("access_token", JStr "abc"); ("expires_in", JInt 1000000000000)]
              1000000000000 "/api/v1/products" None
              (no_cache_state_is_stale eternal_server)
              (no_cache_state_credentials eternal_server)
              eq_refl eq_refl (ex_intro _ (JStr "abc") eq_refl) eq_refl eq_refl)
    as (Hr & Hlog & Hfs & Hself & Hcall).
  destruct (Hcall I) as [Hraise Hsent].
  repeat split; assumption.
Defined.

(** X24 at work: the expiry of the cached entry is marked as UTC. *)
Lemma aware_cached_expiry_raises_witness :
  request_auth_token demo_isoformat demo_fromisoformat aware_cache_state
  = (Raise TypeError, after_reading aware_cache_state).
Proof.
  apply (aware_cached_expiry_raises demo_isoformat demo_fromisoformat aware_cache_state
           [("token", JStr "old"); ("expires_in", JStr "900000000Z")] "900000000Z");
    vm_compute; reflexivity.
Defined.
